(** * gameboyDMG: a shallow embedding of the emulator core

    The development follows the C sources of the emulator:

    - [src/hardware/memory.c]   bus ([ReadMem], [WriteMem], [FetchByte]) and DMA
    - [src/hardware/timer.c]    DIV / TIMA timer ([timer_step])
    - [src/hardware/ppu.c]      PPU mode machine ([ppu_step])
    - [src/hardware/cpu.c]      instruction handlers
    - [src/gameboy.c]           interrupt service and the tick loop

    Two earlier, monolithic copies of the CPU handlers are part of the
    sources as well; the handlers that differ from [cpu.c] are embedded in
    the modules [Monolith] and [Legacy].

    Integers of the C program are modelled as [Z] with the wrap-around of
    their C type written out ([u8], [u16], [usize]); the 64 KiB [memory]
    array is a total function on addresses. *)

From Stdlib Require Import ZArith Bool List Lia.
From Equations Require Import Equations.
Import ListNotations.
Local Open Scope Z_scope.

(** ** Machine integers *)

Definition u8 (x : Z) : Z := x mod 256.
Definition u16 (x : Z) : Z := x mod 65536.
Definition u32 (x : Z) : Z := x mod 4294967296.
(** [size_t] of the 64-bit hosts the makefile targets. *)
Definition usize (x : Z) : Z := x mod 18446744073709551616.
(** [(int8_t)b] for a byte [b]. *)
Definition s8 (b : Z) : Z := if u8 b <? 128 then u8 b else u8 b - 256.

(** ** Arrays of bytes *)

Definition Mem := Z -> Z.

Definition upd (m : Mem) (a v : Z) : Mem :=
  fun x => if x =? a then v else m x.

(** [memcpy(&m[dst], &m[src], n)] as a forward byte copy inside one array. *)
Fixpoint memcpy (m : Mem) (dst src : Z) (n : nat) : Mem :=
  match n with
  | O => m
  | S k => memcpy (upd m dst (m src)) (dst + 1) (src + 1) k
  end.

Definition mem_bytes (m : Mem) : Prop := forall a, 0 <= m a < 256.

(** The integers [start, start + n), for exhaustive checks over bytes and
    16-bit words. *)
Fixpoint zrange (start : Z) (n : nat) : list Z :=
  match n with
  | O => []
  | S k => start :: zrange (start + 1) k
  end.

(** ** Register addresses ([memory.h]) and clock constants ([cpu.h], [timer.h]) *)

Definition DIV_REG  : Z := 0xFF04.
Definition TIMA_REG : Z := 0xFF05.
Definition TMA_REG  : Z := 0xFF06.
Definition TAC_REG  : Z := 0xFF07.
Definition IF_REG   : Z := 0xFF0F.
Definition IE_REG   : Z := 0xFFFF.

Definition CLOCK_FREQ_HZ   : Z := 4194304.
Definition DIV_INC_FREQ_HZ : Z := 16384.

(** ** Data model *)

(** [struct CPU] of [cpu.h]. *)
Record CPU := mkCPU {
  AF : Z; BC : Z; DE : Z; HL : Z; SP : Z; PC : Z;
  running : bool; halted : bool; halt_bug : bool; IME : bool
}.

Inductive PPU_MODE :=
| MODE_0_HBLANK | MODE_1_VBLANK | MODE_2_OAM_SCAN | MODE_3_DRAWING.

Definition mode_num (m : PPU_MODE) : Z :=
  match m with
  | MODE_0_HBLANK => 0 | MODE_1_VBLANK => 1
  | MODE_2_OAM_SCAN => 2 | MODE_3_DRAWING => 3
  end.

(** One OAM entry: the four bytes the source reads through a [uint32_t]. *)
Record OBJ := mkOBJ { obj_y : Z; obj_x : Z; obj_tile : Z; obj_attr : Z }.

(** [struct PPU] of [ppu.h]; [visible_objects] with its counter is a list. *)
Record PPU := mkPPU {
  mode : PPU_MODE; cycle_counter : Z; ly : Z; visible_objects : list OBJ
}.

Record TIMER := mkTIMER { div_cycle_counter : Z; tima_cycle_counter : Z }.

Record DMA := mkDMA { dma_running : bool; dma_cycles : Z }.

Record JOYPAD := mkJOYPAD {
  jp_start : bool; jp_select : bool; jp_b : bool; jp_a : bool;
  jp_down : bool; jp_up : bool; jp_left : bool; jp_right : bool
}.

(** The globals of the program, gathered in one state.  [DEBUG_TEST_LOG] is
    the compile-time macro of that name (set by the makefile's default
    target, unset by [release]); [serial_out] is what the tick loop printed. *)
Record GB := mkGB {
  cpu : CPU; ppu : PPU; timer : TIMER; dma : DMA; joypad : JOYPAD;
  memory : Mem; boot : Mem; boot_rom_enabled : bool;
  DEBUG_TEST_LOG : bool; serial_out : list Z
}.

Definition set_cpu (s : GB) (c : CPU) : GB :=
  mkGB c (ppu s) (timer s) (dma s) (joypad s) (memory s) (boot s)
       (boot_rom_enabled s) (DEBUG_TEST_LOG s) (serial_out s).
Definition set_ppu (s : GB) (p : PPU) : GB :=
  mkGB (cpu s) p (timer s) (dma s) (joypad s) (memory s) (boot s)
       (boot_rom_enabled s) (DEBUG_TEST_LOG s) (serial_out s).
Definition set_timer (s : GB) (t : TIMER) : GB :=
  mkGB (cpu s) (ppu s) t (dma s) (joypad s) (memory s) (boot s)
       (boot_rom_enabled s) (DEBUG_TEST_LOG s) (serial_out s).
Definition set_dma (s : GB) (d : DMA) : GB :=
  mkGB (cpu s) (ppu s) (timer s) d (joypad s) (memory s) (boot s)
       (boot_rom_enabled s) (DEBUG_TEST_LOG s) (serial_out s).
Definition set_memory (s : GB) (m : Mem) : GB :=
  mkGB (cpu s) (ppu s) (timer s) (dma s) (joypad s) m (boot s)
       (boot_rom_enabled s) (DEBUG_TEST_LOG s) (serial_out s).
Definition set_boot_rom_enabled (s : GB) (b : bool) : GB :=
  mkGB (cpu s) (ppu s) (timer s) (dma s) (joypad s) (memory s) (boot s)
       b (DEBUG_TEST_LOG s) (serial_out s).
Definition set_serial_out (s : GB) (o : list Z) : GB :=
  mkGB (cpu s) (ppu s) (timer s) (dma s) (joypad s) (memory s) (boot s)
       (boot_rom_enabled s) (DEBUG_TEST_LOG s) o.

Definition set_AF (c : CPU) (v : Z) : CPU :=
  mkCPU v (BC c) (DE c) (HL c) (SP c) (PC c) (running c) (halted c) (halt_bug c) (IME c).
Definition set_BC (c : CPU) (v : Z) : CPU :=
  mkCPU (AF c) v (DE c) (HL c) (SP c) (PC c) (running c) (halted c) (halt_bug c) (IME c).
Definition set_DE (c : CPU) (v : Z) : CPU :=
  mkCPU (AF c) (BC c) v (HL c) (SP c) (PC c) (running c) (halted c) (halt_bug c) (IME c).
Definition set_HL (c : CPU) (v : Z) : CPU :=
  mkCPU (AF c) (BC c) (DE c) v (SP c) (PC c) (running c) (halted c) (halt_bug c) (IME c).
Definition set_SP (c : CPU) (v : Z) : CPU :=
  mkCPU (AF c) (BC c) (DE c) (HL c) v (PC c) (running c) (halted c) (halt_bug c) (IME c).
Definition set_PC (c : CPU) (v : Z) : CPU :=
  mkCPU (AF c) (BC c) (DE c) (HL c) (SP c) v (running c) (halted c) (halt_bug c) (IME c).
Definition set_halted (c : CPU) (b : bool) : CPU :=
  mkCPU (AF c) (BC c) (DE c) (HL c) (SP c) (PC c) (running c) b (halt_bug c) (IME c).
Definition set_halt_bug (c : CPU) (b : bool) : CPU :=
  mkCPU (AF c) (BC c) (DE c) (HL c) (SP c) (PC c) (running c) (halted c) b (IME c).
Definition set_IME (c : CPU) (b : bool) : CPU :=
  mkCPU (AF c) (BC c) (DE c) (HL c) (SP c) (PC c) (running c) (halted c) (halt_bug c) b.

(** Registers hold 16-bit values. *)
Definition cpu_wf (c : CPU) : Prop :=
  0 <= AF c < 65536 /\ 0 <= BC c < 65536 /\ 0 <= DE c < 65536 /\
  0 <= HL c < 65536 /\ 0 <= SP c < 65536 /\ 0 <= PC c < 65536.

(** ** The bus ([memory.c], [ppu.c]) *)

(** [ppu_get_mode]: the mode as software sees it, from STAT. *)
Definition stat_mode (m : Mem) : Z := Z.land (m 0xFF41) 0x03.
Definition ppu_get_mode (s : GB) : Z := stat_mode (memory s).

Definition lcd_enabled (m : Mem) : bool := Z.shiftr (m 0xFF40) 7 =? 1.
Definition in_vram (addr : Z) : bool := (0x8000 <=? addr) && (addr <=? 0x9FFF).
Definition in_oam (addr : Z) : bool := (0xFE00 <=? addr) && (addr <=? 0xFE9F).

(** The nested VRAM / OAM tests shared by [ReadMem] and [WriteMem]. *)
Definition ppu_blocks (m : Mem) (addr : Z) : bool :=
  lcd_enabled m &&
  ((in_vram addr && (stat_mode m =? mode_num MODE_3_DRAWING)) ||
   (in_oam addr && ((stat_mode m =? mode_num MODE_2_OAM_SCAN) ||
                    (stat_mode m =? mode_num MODE_3_DRAWING)))).

(** [P1 &= ~bit] on a [uint8_t]. *)
Definition clear_bits (v mask : Z) : Z := u8 (Z.land v (Z.lnot mask)).

(** The read of 0xFF00: [p1] is [memory[0xFF00]]. *)
Definition joypad_P1 (j : JOYPAD) (p1 : Z) : Z :=
  let P1 := u8 (Z.lor p1 0x0F) in
  let P1 :=
    if Z.land P1 0x10 =? 0 then
      let P1 := if jp_right j then clear_bits P1 0x01 else P1 in
      let P1 := if jp_left j then clear_bits P1 0x02 else P1 in
      let P1 := if jp_up j then clear_bits P1 0x04 else P1 in
      if jp_down j then clear_bits P1 0x08 else P1
    else P1 in
  if Z.land P1 0x20 =? 0 then
    let P1 := if jp_a j then clear_bits P1 0x01 else P1 in
    let P1 := if jp_b j then clear_bits P1 0x02 else P1 in
    let P1 := if jp_select j then clear_bits P1 0x04 else P1 in
    if jp_start j then clear_bits P1 0x08 else P1
  else P1.

(** [uint8_t ReadMem(uint16_t addr)]. *)
Definition ReadMem (s : GB) (addr0 : Z) : Z :=
  let addr := u16 addr0 in
  if dma_running (dma s) && ((addr <? 0xFF80) || (addr >? 0xFFFE)) then 0xFF
  else if DEBUG_TEST_LOG s && (addr =? 0xFF44) then 0x90
  else if ppu_blocks (memory s) addr then 0xFF
  else if boot_rom_enabled s && (addr <? 0x0100) then boot s addr
  else if addr =? 0xFF00 then joypad_P1 (joypad s) (memory s 0xFF00)
  else memory s addr.

(** [void WriteMem(uint16_t addr, uint8_t data)]. *)
Definition WriteMem (s : GB) (addr0 data0 : Z) : GB :=
  let addr := u16 addr0 in
  let data := u8 data0 in
  if ppu_blocks (memory s) addr then s
  else
    let s := if addr =? 0xFF50 then set_boot_rom_enabled s false else s in
    let s :=
      if addr =? 0xFF46 then
        let transfer_source := u16 (data * 0x0100) in
        set_dma (set_memory s (memcpy (memory s) 0xFE00 transfer_source 160))
                (mkDMA true 0)
      else s in
    if negb (addr =? DIV_REG) then set_memory s (upd (memory s) addr data)
    else set_timer (set_memory s (upd (memory s) DIV_REG 0x00)) (mkTIMER 0 0).

(** [uint8_t FetchByte(CPU *cpu)]: the state after the fetch and the byte. *)
Definition FetchByte (s : GB) : GB * Z :=
  if halt_bug (cpu s) then
    let s := set_cpu s (set_halt_bug (cpu s) false) in
    (s, ReadMem s (PC (cpu s)))
  else
    let pc := PC (cpu s) in
    let s := set_cpu s (set_PC (cpu s) (u16 (pc + 1))) in
    (s, ReadMem s pc).

(** [uint16_t FetchWord(CPU *cpu)]. *)
Definition FetchWord (s : GB) : GB * Z :=
  let '(s, lsb) := FetchByte s in
  let '(s, msb) := FetchByte s in
  (s, u16 (Z.lor (Z.shiftl msb 8) lsb)).

(** [void dma_step(int cycles)]. *)
Definition dma_step (s : GB) (cycles : Z) : GB :=
  if dma_running (dma s) then
    let c := usize (dma_cycles (dma s) + cycles) in
    set_dma s (mkDMA (if c >=? 640 then false else true) c)
  else s.

(** ** Timer ([timer.c]) *)

(** The [switch (TAC & 0x03)]; the last arm is [case 0b11]. *)
Definition tima_inc_rate (sel : Z) : Z :=
  match sel with
  | 0 => 4096
  | 1 => 262144
  | 2 => 65536
  | _ => 16384
  end.

(** [uint32_t threshold = CLOCK_FREQ_HZ / tima_inc_rate]. *)
Definition tima_threshold (sel : Z) : Z := u32 (CLOCK_FREQ_HZ / tima_inc_rate sel).

(** Body of the [while] loop, on the memory array: [memory[TIMA_REG]++] and
    the reload from TMA with the interrupt request when it became 0. *)
Definition tima_tick (m : Mem) : Mem :=
  let m := upd m TIMA_REG (u8 (m TIMA_REG + 1)) in
  if m TIMA_REG =? 0 then
    let m := upd m TIMA_REG (m TMA_REG) in
    upd m IF_REG (u8 (Z.lor (m IF_REG) 0x04))
  else m.

(** [while (timer.tima_cycle_counter >= threshold) { ... }]: the final
    counter and memory.  The loop ends because every threshold is positive. *)
Equations? tima_loop (sel : Z) (counter : Z) (m : Mem) : Z * Mem
  by wf (Z.to_nat counter) lt :=
  tima_loop sel counter m with Z_le_gt_dec (tima_threshold sel) counter := {
    | left _ := tima_loop sel (counter - tima_threshold sel) (tima_tick m);
    | right _ := (counter, m) }.
Proof.
  assert (0 < tima_threshold sel).
  { unfold tima_threshold, tima_inc_rate.
    repeat match goal with
           | |- context [match ?x with _ => _ end] => destruct x
           end; reflexivity. }
  lia.
Qed.

(** [void timer_step(int Tcycles)]. *)
Definition timer_step (s : GB) (Tcycles : Z) : GB :=
  let div := usize (div_cycle_counter (timer s) + Tcycles) in
  let tima := usize (tima_cycle_counter (timer s) + Tcycles) in
  let period := CLOCK_FREQ_HZ / DIV_INC_FREQ_HZ in
  let '(div, m) :=
    if div >=? period then
      let increment := div / period in
      (div mod period, upd (memory s) DIV_REG (u8 (memory s DIV_REG + increment)))
    else (div, memory s) in
  let TAC := m TAC_REG in
  let '(tima, m) :=
    if negb (Z.land TAC 0x04 =? 0) then tima_loop (Z.land TAC 0x03) tima m
    else (tima, m) in
  set_timer (set_memory s m) (mkTIMER div tima).

(** ** PPU mode machine ([ppu.c]) *)

Definition or_mem (s : GB) (addr bits : Z) : GB :=
  set_memory s (upd (memory s) addr (u8 (Z.lor (memory s addr) bits))).

Definition set_ppu_mode (p : PPU) (md : PPU_MODE) : PPU :=
  mkPPU md (cycle_counter p) (ly p) (visible_objects p).
Definition set_cycle_counter (p : PPU) (c : Z) : PPU :=
  mkPPU (mode p) c (ly p) (visible_objects p).
Definition set_ly (p : PPU) (l : Z) : PPU :=
  mkPPU (mode p) (cycle_counter p) l (visible_objects p).
Definition set_visible_objects (p : PPU) (l : list OBJ) : PPU :=
  mkPPU (mode p) (cycle_counter p) (ly p) l.

(** [ppu_set_mode]: the internal mode and the low two bits of STAT. *)
Definition ppu_set_mode (s : GB) (md : PPU_MODE) : GB :=
  let s := set_ppu s (set_ppu_mode (ppu s) md) in
  set_memory s (upd (memory s) 0xFF41
                    (u8 (Z.lor (Z.land (memory s 0xFF41) 0xFC) (mode_num md)))).

Definition oam_entry (m : Mem) (i : Z) : OBJ :=
  mkOBJ (m (0xFE00 + 4 * i)) (m (0xFE00 + 4 * i + 1))
        (m (0xFE00 + 4 * i + 2)) (m (0xFE00 + 4 * i + 3)).

(** The [for] loop of [ppu_oam_scan] over the entries [idxs], stopping at
    the tenth visible one. *)
Fixpoint oam_collect (m : Mem) (line height : Z) (idxs : list Z)
         (found : list OBJ) : list OBJ :=
  match idxs with
  | [] => found
  | i :: rest =>
      let o := oam_entry m i in
      if (obj_y o - 16 <=? line) && (line <? obj_y o - 16 + height) then
        let found := found ++ [o] in
        if Z.of_nat (length found) =? 10 then found
        else oam_collect m line height rest found
      else oam_collect m line height rest found
  end.

(** [qsort] with [sprite_comparator] compares the X bytes; C leaves the
    order of equal keys open, an insertion sort stands for it here. *)
Fixpoint insert_by_x (o : OBJ) (l : list OBJ) : list OBJ :=
  match l with
  | [] => [o]
  | p :: rest => if obj_x o <? obj_x p then o :: l else p :: insert_by_x o rest
  end.

Definition sort_by_x (l : list OBJ) : list OBJ :=
  fold_left (fun acc o => insert_by_x o acc) l [].

Definition ppu_oam_scan (s : GB) : GB :=
  let is_double_height := negb (Z.land (memory s 0xFF40) 0x04 =? 0) in
  let obj_height := if is_double_height then 16 else 8 in
  let found := oam_collect (memory s) (ly (ppu s)) obj_height
                           (map Z.of_nat (seq 0 40)) [] in
  set_ppu s (set_visible_objects (ppu s) (sort_by_x found)).

(** [ppu_scanline] reads memory and hands 160 pixels to the host's
    [process_frame_buffer]; it writes neither [memory] nor the PPU record.
    The host frame buffer is outside the embedded state. *)
Definition ppu_scanline (s : GB) : GB := s.

Definition stat_request (s : GB) (STAT mask : Z) : GB :=
  if negb (Z.land STAT mask =? 0) then or_mem s IF_REG 0x02 else s.

(** [void ppu_step(PPU *ppu, int cycles)]. *)
Definition ppu_step (s : GB) (cycles : Z) : GB :=
  let s := set_ppu s (set_cycle_counter (ppu s)
                        (usize (cycle_counter (ppu s) + cycles))) in
  let STAT := memory s 0xFF41 in
  let cc := cycle_counter (ppu s) in
  match mode (ppu s) with
  | MODE_2_OAM_SCAN =>
      if cc >=? 80 then
        let s := set_ppu s (set_cycle_counter (ppu s) (cc - 80)) in
        ppu_set_mode s MODE_3_DRAWING
      else s
  | MODE_3_DRAWING =>
      if cc >=? 172 then
        let s := set_ppu s (set_cycle_counter (ppu s) (cc - 172)) in
        let s := ppu_set_mode s MODE_0_HBLANK in
        let s := stat_request s STAT 0x08 in
        ppu_scanline s
      else s
  | MODE_0_HBLANK =>
      if cc >=? 204 then
        let s := set_ppu s (set_cycle_counter (ppu s) (cc - 204)) in
        let s := set_ppu s (set_ly (ppu s) (u8 (ly (ppu s) + 1))) in
        let s := set_memory s (upd (memory s) 0xFF44 (ly (ppu s))) in
        let LYC := memory s 0xFF45 in
        let s :=
          if ly (ppu s) =? LYC then
            let s := or_mem s 0xFF41 0x04 in
            stat_request s (memory s 0xFF41) 0x40
          else
            set_memory s (upd (memory s) 0xFF41 (clear_bits (memory s 0xFF41) 0x04)) in
        let STAT := memory s 0xFF41 in
        if ly (ppu s) =? 144 then
          let s := ppu_set_mode s MODE_1_VBLANK in
          let s := stat_request s STAT 0x10 in
          or_mem s IF_REG 0x1
        else
          let s := ppu_set_mode s MODE_2_OAM_SCAN in
          let s := ppu_oam_scan s in
          stat_request s STAT 0x20
      else s
  | MODE_1_VBLANK =>
      if cc >=? 456 then
        let s := set_ppu s (set_cycle_counter (ppu s) (cc - 456)) in
        let s := set_ppu s (set_ly (ppu s) (u8 (ly (ppu s) + 1))) in
        let s := set_memory s (upd (memory s) 0xFF44 (ly (ppu s))) in
        if ly (ppu s) >? 153 then
          let s := set_ppu s (set_ly (ppu s) 0) in
          let s := set_memory s (upd (memory s) 0xFF44 0) in
          let s := ppu_set_mode s MODE_2_OAM_SCAN in
          let s := ppu_oam_scan s in
          stat_request s STAT 0x20
        else s
      else s
  end.

(** ** Interrupt service ([gameboy.c]) *)

Definition clear_mem_bits (s : GB) (addr mask : Z) : GB :=
  set_memory s (upd (memory s) addr (clear_bits (memory s addr) mask)).

(** [int handleInterrupts(CPU *cpu)]: the state afterwards and the cycles. *)
Definition handleInterrupts (s : GB) : GB * Z :=
  let IE := ReadMem s IE_REG in
  let IF := ReadMem s IF_REG in
  let requested := Z.land IE IF in
  if negb (IME (cpu s)) then
    ((if negb (requested =? 0) then set_cpu s (set_halted (cpu s) false) else s), 0)
  else if requested =? 0 then (s, 0)
  else
    let s := set_cpu s (set_halted (cpu s) false) in
    let s := set_cpu s (set_IME (cpu s) false) in
    let s := set_cpu s (set_SP (cpu s) (u16 (SP (cpu s) - 2))) in
    let s := WriteMem s (SP (cpu s)) (Z.land (PC (cpu s)) 0xFF) in
    let s := WriteMem s (SP (cpu s) + 1) (Z.shiftr (PC (cpu s)) 8) in
    let s :=
      if negb (Z.land requested 0x01 =? 0) then
        set_cpu (clear_mem_bits s IF_REG 0x01) (set_PC (cpu s) 0x0040)
      else if negb (Z.land requested 0x02 =? 0) then
        set_cpu (clear_mem_bits s IF_REG 0x02) (set_PC (cpu s) 0x0048)
      else if negb (Z.land requested 0x04 =? 0) then
        set_cpu (clear_mem_bits s IF_REG 0x04) (set_PC (cpu s) 0x0050)
      else if negb (Z.land requested 0x08 =? 0) then
        set_cpu (clear_mem_bits s IF_REG 0x08) (set_PC (cpu s) 0x0058)
      else if negb (Z.land requested 0x10 =? 0) then
        set_cpu (clear_mem_bits s IF_REG 0x10) (set_PC (cpu s) 0x0060)
      else s in
    (s, 20).

(** ** Instruction handlers ([cpu.c]) *)

(** A handler returns the state afterwards and its T-cycles; [None] when
    the C handler would use an uninitialised local. *)
Definition Instruction := GB -> option (GB * Z).

Definition NOP (s : GB) : GB * Z := (s, 4).

Definition HALT (s : GB) : GB * Z :=
  let IF := memory s IF_REG in
  let IE := memory s IE_REG in
  if negb (IME (cpu s)) && negb (Z.land IE IF =? 0) then
    (set_cpu s (set_halt_bug (cpu s) true), 4)
  else if Z.land IE IF =? 0 then (set_cpu s (set_halted (cpu s) true), 4)
  else (s, 4).

(** [WriteMem(--cpu->SP, v)]. *)
Definition push_byte (s : GB) (v : Z) : GB :=
  let s := set_cpu s (set_SP (cpu s) (u16 (SP (cpu s) - 1))) in
  WriteMem s (SP (cpu s)) v.

(** [ReadMem(cpu->SP++)]. *)
Definition pop_byte (s : GB) : GB * Z :=
  let sp := SP (cpu s) in
  let s := set_cpu s (set_SP (cpu s) (u16 (sp + 1))) in
  (s, ReadMem s sp).

Definition PUSH_BC (s : GB) : GB * Z :=
  let s := push_byte s (u8 (Z.shiftr (BC (cpu s)) 8)) in
  let s := push_byte s (u8 (Z.land (BC (cpu s)) 0x00FF)) in
  (s, 16).

Definition PUSH_DE (s : GB) : GB * Z :=
  let s := push_byte s (u8 (Z.shiftr (DE (cpu s)) 8)) in
  let s := push_byte s (u8 (Z.land (DE (cpu s)) 0x00FF)) in
  (s, 16).

Definition PUSH_HL (s : GB) : GB * Z :=
  let s := push_byte s (u8 (Z.shiftr (HL (cpu s)) 8)) in
  let s := push_byte s (u8 (Z.land (HL (cpu s)) 0x00FF)) in
  (s, 16).

Definition PUSH_AF (s : GB) : GB * Z :=
  let s := push_byte s (u8 (Z.shiftr (AF (cpu s)) 8)) in
  let s := push_byte s (u8 (Z.land (AF (cpu s)) 0x00F0)) in
  (s, 16).

Definition POP_BC (s : GB) : GB * Z :=
  let '(s, lo) := pop_byte s in
  let s := set_cpu s (set_BC (cpu s) (u16 lo)) in
  let '(s, hi) := pop_byte s in
  let s := set_cpu s (set_BC (cpu s)
             (u16 (Z.lor (Z.land (BC (cpu s)) 0x00FF) (Z.shiftl (u16 hi) 8)))) in
  (s, 12).

Definition POP_DE (s : GB) : GB * Z :=
  let '(s, lo) := pop_byte s in
  let s := set_cpu s (set_DE (cpu s) (u16 lo)) in
  let '(s, hi) := pop_byte s in
  let s := set_cpu s (set_DE (cpu s)
             (u16 (Z.lor (Z.land (DE (cpu s)) 0x00FF) (Z.shiftl (u16 hi) 8)))) in
  (s, 12).

Definition POP_HL (s : GB) : GB * Z :=
  let '(s, lo) := pop_byte s in
  let s := set_cpu s (set_HL (cpu s) (u16 lo)) in
  let '(s, hi) := pop_byte s in
  let s := set_cpu s (set_HL (cpu s)
             (u16 (Z.lor (Z.land (HL (cpu s)) 0x00FF) (Z.shiftl (u16 hi) 8)))) in
  (s, 12).

Definition POP_AF (s : GB) : GB * Z :=
  let '(s, flags) := pop_byte s in
  let '(s, a) := pop_byte s in
  let s := set_cpu s (set_AF (cpu s)
             (u16 (Z.lor (u16 (Z.shiftl a 8)) (Z.land flags 0xF0)))) in
  (s, 12).

(** [cpu->AF |= bits] and [cpu->AF &= ~bits]. *)
Definition AF_or (c : CPU) (bits : Z) : CPU := set_AF c (u16 (Z.lor (AF c) bits)).
Definition AF_clear (c : CPU) (bits : Z) : CPU :=
  set_AF c (u16 (Z.land (AF c) (Z.lnot bits))).

(** The [switch (opcode)] of [ADD_HL_rr]; no arm leaves [n] uninitialised. *)
Definition ADD_HL_operand (c : CPU) (opcode : Z) : option Z :=
  match opcode with
  | 0x09 => Some (BC c)
  | 0x19 => Some (DE c)
  | 0x29 => Some (HL c)
  | 0x39 => Some (SP c)
  | _ => None
  end.

(** [ADD_HL_rr] of [cpu.c]: [uint32_t result], compared with 0xFFFF
    (spelled [IE_REG] in the source). *)
Definition ADD_HL_rr (s : GB) : option (GB * Z) :=
  let opcode := ReadMem s (PC (cpu s) - 1) in
  match ADD_HL_operand (cpu s) opcode with
  | None => None
  | Some n =>
      let c := cpu s in
      let result := u32 (HL c + n) in
      let c := AF_clear c 0x40 in
      let c := if result >? IE_REG then AF_or c 0x10 else AF_clear c 0x10 in
      let c := if Z.land (HL c) 0x0FFF + Z.land n 0x0FFF >? 0x0FFF
               then AF_or c 0x20 else AF_clear c 0x20 in
      let c := set_HL c (u16 result) in
      Some (set_cpu s c, 8)
  end.

(** [ADD_SP_s8] of [cpu.c]. *)
Definition ADD_SP_s8 (s : GB) : GB * Z :=
  let '(s, b) := FetchByte s in
  let n := s8 b in
  let c := cpu s in
  let result := u16 (SP c + n) in
  let c := set_AF c (Z.land (AF c) 0xFF00) in
  let c := if Z.land (SP c) 0x0F + Z.land (u8 n) 0x0F >? 0x0F
           then AF_or c 0x20 else c in
  let c := if Z.land (SP c) 0xFF + Z.land (u8 n) 0xFF >? 0xFF
           then AF_or c 0x10 else c in
  let c := set_SP c result in
  (set_cpu s c, 16).

Definition total (h : GB -> GB * Z) : Instruction := fun s => Some (h s).

(** [instruction_table] as [InitializeInstructionTable] fills it, for the
    handlers embedded above; [None] for an opcode whose handler is not
    embedded. *)
Definition instruction_table (opcode : Z) : option Instruction :=
  match opcode with
  | 0x00 => Some (total NOP)
  | 0x76 => Some (total HALT)
  | 0xC5 => Some (total PUSH_BC)
  | 0xD5 => Some (total PUSH_DE)
  | 0xE5 => Some (total PUSH_HL)
  | 0xF5 => Some (total PUSH_AF)
  | 0xC1 => Some (total POP_BC)
  | 0xD1 => Some (total POP_DE)
  | 0xE1 => Some (total POP_HL)
  | 0xF1 => Some (total POP_AF)
  | 0x09 | 0x19 | 0x29 | 0x39 => Some ADD_HL_rr
  | 0xE8 => Some (total ADD_SP_s8)
  | _ => None
  end.

(** ** The tick loop ([main] of [gameboy.c]) *)

(** What one iteration of the inner [while] did with its cycle counts. *)
Record Tick := mkTick {
  tick_state : GB;
  interrupt_cycles : Z;      (* returned by handleInterrupts *)
  handler_cycles : option Z; (* returned by the dispatched handler, if any ran *)
  cycles_executed : Z;       (* the value handed to the three step functions *)
  cycles_this_frame : Z
}.

(** The serial tap at the end of the iteration. *)
Definition serial_tap (s : GB) : GB :=
  if (memory s 0xFF01 >=? 0) && (memory s 0xFF01 <=? 127) && (memory s 0xFF02 =? 0x81)
  then set_memory (set_serial_out s (serial_out s ++ [memory s 0xFF01]))
                  (upd (memory s) 0xFF02 0)
  else s.

(** The three step calls of the loop body, in source order. *)
Definition advance (s : GB) (c : Z) : GB :=
  dma_step (timer_step (ppu_step s c) c) c.

(** One iteration of [while (cycles_this_frame < CYCLES_PER_FRAME && cpu.running)];
    [cycles] is the local [cycles_executed].  [None] when the fetched opcode
    has no embedded handler. *)
Definition main_tick (s : GB) (frame : Z) : option Tick :=
  let cycles := 0 in
  let '(s, ic) := handleInterrupts s in
  let cycles := cycles + ic in        (* cycles_executed += handleInterrupts(&cpu); *)
  let r :=
    if halted (cpu s) then
      Some (s, cycles + 4, None)      (* cycles_executed += 4; *)
    else
      let '(s, opcode) := FetchByte s in
      match instruction_table opcode with
      | None => None
      | Some h =>
          match h s with
          | None => None
          | Some (s, hc) =>
              Some (s, hc, Some hc)   (* cycles_executed = instruction_table[opcode](&cpu); *)
          end
      end in
  match r with
  | None => None
  | Some (s, cycles, hc) =>
      let frame := frame + cycles in  (* cycles_this_frame += cycles_executed; *)
      let s := advance s cycles in
      Some (mkTick (serial_tap s) ic hc cycles frame)
  end.

(** ** The monolithic copy of the emulator

    An earlier single-file [gameboy.c] (the one with the SDL window) holds
    the whole emulator in one translation unit: the CPU has no [halt_bug]
    field, the bus has no DMA lockout.  These are its handlers that differ
    from [cpu.c]. *)
Module Monolith.

Record CPU := mkCPU {
  AF : Z; BC : Z; DE : Z; HL : Z; SP : Z; PC : Z;
  running : bool; halted : bool; IME : bool
}.

Record Machine := mkMachine {
  cpu : CPU; memory : Mem; boot : Mem; boot_rom_enabled : bool;
  joypad : JOYPAD
}.

Definition set_cpu (s : Machine) (c : CPU) : Machine :=
  mkMachine c (memory s) (boot s) (boot_rom_enabled s) (joypad s).
Definition set_AF (c : CPU) (v : Z) : CPU :=
  mkCPU v (BC c) (DE c) (HL c) (SP c) (PC c) (running c) (halted c) (IME c).
Definition set_HL (c : CPU) (v : Z) : CPU :=
  mkCPU (AF c) (BC c) (DE c) v (SP c) (PC c) (running c) (halted c) (IME c).
Definition set_SP (c : CPU) (v : Z) : CPU :=
  mkCPU (AF c) (BC c) (DE c) (HL c) v (PC c) (running c) (halted c) (IME c).
Definition set_PC (c : CPU) (v : Z) : CPU :=
  mkCPU (AF c) (BC c) (DE c) (HL c) (SP c) v (running c) (halted c) (IME c).
Definition set_halted (c : CPU) (b : bool) : CPU :=
  mkCPU (AF c) (BC c) (DE c) (HL c) (SP c) (PC c) (running c) b (IME c).
Definition AF_or (c : CPU) (bits : Z) : CPU := set_AF c (u16 (Z.lor (AF c) bits)).
Definition AF_clear (c : CPU) (bits : Z) : CPU :=
  set_AF c (u16 (Z.land (AF c) (Z.lnot bits))).

Definition ReadMem (s : Machine) (addr0 : Z) : Z :=
  let addr := u16 addr0 in
  if ppu_blocks (memory s) addr then 0xFF
  else if boot_rom_enabled s && (addr <? 0x0100) then boot s addr
  else if addr =? 0xFF00 then joypad_P1 (joypad s) (memory s 0xFF00)
  else memory s addr.

(** [return ReadMem(cpu->PC++);] *)
Definition FetchByte (s : Machine) : Machine * Z :=
  let pc := PC (cpu s) in
  let s := set_cpu s (set_PC (cpu s) (u16 (pc + 1))) in
  (s, ReadMem s pc).

Definition ADD_HL_operand (c : CPU) (opcode : Z) : option Z :=
  match opcode with
  | 0x09 => Some (BC c)
  | 0x19 => Some (DE c)
  | 0x29 => Some (HL c)
  | 0x39 => Some (SP c)
  | _ => None
  end.

(** [ADD_HL_rr]: [uint16_t result = cpu->HL + n], then [result > 0xFFFF]. *)
Definition ADD_HL_rr (s : Machine) : option (Machine * Z) :=
  let opcode := ReadMem s (PC (cpu s) - 1) in
  match ADD_HL_operand (cpu s) opcode with
  | None => None
  | Some n =>
      let c := cpu s in
      let result := u16 (HL c + n) in
      let c := AF_clear c 0x40 in
      let c := if result >? 0xFFFF then AF_or c 0x10 else AF_clear c 0x10 in
      let c := if Z.land (HL c) 0x0FFF + Z.land n 0x0FFF >? 0x0FFF
               then AF_or c 0x20 else AF_clear c 0x20 in
      let c := set_HL c result in
      Some (set_cpu s c, 8)
  end.

(** [ADD_SP_s8]: [cpu->AF = 0x00; // Clear Z, N, H, C]. *)
Definition ADD_SP_s8 (s : Machine) : Machine * Z :=
  let '(s, b) := FetchByte s in
  let n := s8 b in
  let c := cpu s in
  let result := u16 (SP c + n) in
  let c := set_AF c 0x00 in
  let c := if Z.land (SP c) 0x0F + Z.land n 0x0F >? 0x0F
           then AF_or c 0x20 else c in
  let c := if Z.land (SP c) 0xFF + Z.land n 0xFF >? 0xFF
           then AF_or c 0x10 else c in
  let c := set_SP c result in
  (set_cpu s c, 16).

(** [HALT]: the HALT-bug block is commented out in this copy. *)
Definition HALT (s : Machine) : Machine * Z :=
  (set_cpu s (set_halted (cpu s) true), 4).

End Monolith.

(** ** The first copy of the CPU

    The top-level [gameboy.c] starts with the earliest form of the handlers,
    which index [memory] directly; its [struct CPU] is that of the
    monolithic copy. *)
Module Legacy.

(** [ADD_HL_rr]: [result > 0xFF] for the carry, nibble masks for the
    half carry. *)
Definition ADD_HL_rr (c : Monolith.CPU) (memory : Mem)
  : option (Monolith.CPU * Z) :=
  let opcode := memory (Monolith.PC c - 1) in
  match Monolith.ADD_HL_operand c opcode with
  | None => None
  | Some n =>
      let result := u16 (Monolith.HL c + n) in
      let c1 := Monolith.AF_clear c 0x40 in
      let c1 := if result >? 0xFF then Monolith.AF_or c1 0x10
                else Monolith.AF_clear c1 0x10 in
      let c1 := if Z.land (Monolith.HL c1) 0x0F + Z.land n 0x0F >? 0x0F
                then Monolith.AF_or c1 0x20 else Monolith.AF_clear c1 0x20 in
      Some (Monolith.set_HL c1 result, 8)
  end.

End Legacy.

(** ** Flags of the F register *)

Definition flag_Z (af : Z) : bool := Z.testbit af 7.
Definition flag_N (af : Z) : bool := Z.testbit af 6.
Definition flag_H (af : Z) : bool := Z.testbit af 5.
Definition flag_C (af : Z) : bool := Z.testbit af 4.
(** The accumulator, the high byte of AF. *)
Definition reg_A (af : Z) : Z := Z.shiftr af 8.

(** ** The timer as the specification words it

    One TIMA period per TAC rate, and one TIMA increment on the values of
    TIMA and IF: a wrap from 0xFF reloads TMA and raises bit 2 of IF. *)
Definition tima_period (TAC : Z) : Z :=
  match Z.land TAC 0x03 with
  | 0 => 1024
  | 1 => 16
  | 2 => 64
  | _ => 256
  end.

Definition tima_spec_tick (tma : Z) (st : Z * Z) : Z * Z :=
  let '(tima, iflag) := st in
  if tima =? 0xFF then (tma, Z.lor iflag 0x04) else (tima + 1, iflag).

(** ** Plain memory cells

    An address where, in the current state, [WriteMem] is a plain store and
    [ReadMem] a plain load: outside the I/O page 0xFF00-0xFF7F, not locked
    out by a running DMA, not gated by the PPU mode, not shadowed by the
    boot ROM. *)
Definition plain_cell (s : GB) (a : Z) : bool :=
  (0 <=? a) && (a <=? 0xFFFF) &&
  ((a <? 0xFF00) || (0xFF80 <=? a)) &&
  (negb (dma_running (dma s)) || ((0xFF80 <=? a) && (a <=? 0xFFFE))) &&
  negb (ppu_blocks (memory s) a) &&
  negb (boot_rom_enabled s && (a <? 0x0100)).

(** [first; second] on the state, dropping the cycle counts. *)
Definition then_ (first second : GB -> GB * Z) (s : GB) : GB :=
  fst (second (fst (first s))).

(** ** Concrete states used for examples *)

Definition zero_mem : Mem := fun _ => 0.

Definition no_buttons : JOYPAD :=
  mkJOYPAD false false false false false false false false.

(** All registers zero, LCD off, boot ROM unmapped, no DMA. *)
Definition gb0 : GB :=
  mkGB (mkCPU 0 0 0 0 0 0 true false false false)
       (mkPPU MODE_2_OAM_SCAN 0 0 [])
       (mkTIMER 0 0) (mkDMA false 0) no_buttons
       zero_mem zero_mem false false [].

(** A byte 0xAB in work RAM at 0xC005. *)
Definition gb_wram : GB := set_memory gb0 (upd zero_mem 0xC005 0xAB).

(** A DMA transfer in flight; the CPU is halted with IME set, IE and IF
    hold 0. *)
Definition gb_dma : GB :=
  set_dma (set_cpu gb0 (mkCPU 0 0x1234 0 0 0xD000 0x0150 true true false true))
          (mkDMA true 0).

(** A DMA transfer in flight while the CPU runs with its stack in work RAM:
    BC = 0x1234, SP = 0xD000. *)
Definition gb_dma_stack : GB :=
  set_dma (set_cpu gb0 (mkCPU 0 0x1234 0 0 0xD000 0x0150 true false false false))
          (mkDMA true 0).


(** TAC = 0x05 (enabled, 16 T-cycles), TIMA = 0xFE, TMA = 0xAB. *)
Definition gb_timer : GB :=
  set_memory gb0 (upd (upd (upd zero_mem TAC_REG 0x05) TIMA_REG 0xFE) TMA_REG 0xAB).

(** BC = 0x1234, SP = 0xD000 in work RAM, no DMA. *)
Definition gb_stack : GB :=
  set_cpu gb0 (mkCPU 0x56FF 0x1234 0x9ABC 0xDEF0 0xD000 0x0150 true false false false).

(** VBLANK requested and enabled with IME set; the vector 0x0040 holds a
    NOP (0x00). *)
Definition gb_irq : GB :=
  set_memory (set_cpu gb0 (mkCPU 0 0 0 0 0xD000 0x0150 true false false true))
             (upd (upd zero_mem IE_REG 0x01) IF_REG 0x01).

(** ADD HL,BC (0x09) just fetched from 0x0150, HL = 0xFFFF, BC = 0x0001,
    Z set. *)
Definition mono_add_hl : Monolith.Machine :=
  Monolith.mkMachine
    (Monolith.mkCPU 0x0080 0x0001 0 0xFFFF 0xFFFE 0x0151 true false false)
    (upd zero_mem 0x0150 0x09) zero_mem false no_buttons.

(** The same registers for the modular emulator. *)
Definition gb_add_hl : GB :=
  set_memory (set_cpu gb0 (mkCPU 0x0080 0x0001 0 0xFFFF 0xFFFE 0x0151 true false false false))
             (upd zero_mem 0x0150 0x09).

(** ADD SP,+1: operand 0x01 at PC = 0x0150, A = 0x12, SP = 0xFFF0. *)
Definition mono_add_sp : Monolith.Machine :=
  Monolith.mkMachine
    (Monolith.mkCPU 0x1200 0 0 0 0xFFF0 0x0150 true false false)
    (upd zero_mem 0x0150 0x01) zero_mem false no_buttons.

Definition gb_add_sp : GB :=
  set_memory (set_cpu gb0 (mkCPU 0x1200 0 0 0 0xFFF0 0x0150 true false false false))
             (upd zero_mem 0x0150 0x01).

(** Line 144 of VBLANK with LYC = 145; STAT shows mode 1, no coincidence. *)
Definition gb_vblank_144 : GB :=
  set_memory (set_ppu gb0 (mkPPU MODE_1_VBLANK 0 144 []))
             (upd (upd (upd zero_mem 0xFF41 0x01) 0xFF44 144) 0xFF45 145).

(** The last VBLANK line with LYC = 0. *)
Definition gb_vblank_153 : GB :=
  set_memory (set_ppu gb0 (mkPPU MODE_1_VBLANK 0 153 []))
             (upd (upd (upd zero_mem 0xFF41 0x01) 0xFF44 153) 0xFF45 0).

(** End of HBLANK on line 9 with LYC = 10. *)
Definition gb_hblank_9 : GB :=
  set_memory (set_ppu gb0 (mkPPU MODE_0_HBLANK 200 9 []))
             (upd (upd zero_mem 0xFF44 9) 0xFF45 10).

(** * Properties *)

(** ** Arithmetic of machine integers *)

Lemma u8_small x : 0 <= x < 256 -> u8 x = x.
Proof. intros; unfold u8; apply Z.mod_small; lia. Qed.

Lemma u16_small x : 0 <= x < 65536 -> u16 x = x.
Proof. intros; unfold u16; apply Z.mod_small; lia. Qed.

Lemma u8_range x : 0 <= u8 x < 256.
Proof. unfold u8; apply Z.mod_pos_bound; lia. Qed.

Lemma u16_range x : 0 <= u16 x < 65536.
Proof. unfold u16; apply Z.mod_pos_bound; lia. Qed.

Lemma usize_small x : 0 <= x < 18446744073709551616 -> usize x = x.
Proof. intros; unfold usize; apply Z.mod_small; lia. Qed.

Lemma upd_same m a v : upd m a v a = v.
Proof. unfold upd; now rewrite Z.eqb_refl. Qed.

Lemma upd_other m a v x : x <> a -> upd m a v x = m x.
Proof. intros H; unfold upd; apply Z.eqb_neq in H; now rewrite H. Qed.

Lemma mem_bytes_upd m a v : mem_bytes m -> 0 <= v < 256 -> mem_bytes (upd m a v).
Proof.
  intros Hm Hv x; unfold upd; destruct (x =? a); [exact Hv | apply Hm].
Qed.

Lemma mem_bytes_zero : mem_bytes zero_mem.
Proof. intros a; unfold zero_mem; lia. Qed.

(** ** [memcpy] *)

Lemma memcpy_outside n : forall m dst src x,
  x < dst \/ dst + Z.of_nat n <= x -> memcpy m dst src n x = m x.
Proof.
  induction n as [|k IH]; intros m dst src x Hx; [reflexivity|].
  cbn [memcpy]. rewrite IH by lia. apply upd_other; lia.
Qed.

Lemma memcpy_inside n : forall m dst src i,
  dst + Z.of_nat n <= src \/ src + Z.of_nat n <= dst \/ src = dst ->
  0 <= i < Z.of_nat n ->
  memcpy m dst src n (dst + i) = m (src + i).
Proof.
  induction n as [|k IH]; intros m dst src i Hsep Hi; [lia|].
  cbn [memcpy].
  destruct (Z.eq_dec i 0) as [->|Hnz].
  - rewrite memcpy_outside by lia.
    rewrite !Z.add_0_r. apply upd_same.
  - replace (dst + i) with ((dst + 1) + (i - 1)) by lia.
    rewrite IH by lia.
    replace (src + 1 + (i - 1)) with (src + i) by lia.
    apply upd_other; lia.
Qed.

(** ** The bus *)

Lemma ppu_blocks_outside m a :
  in_vram a = false -> in_oam a = false -> ppu_blocks m a = false.
Proof.
  intros Hv Ho; unfold ppu_blocks; rewrite Hv, Ho; cbn.
  apply andb_false_r.
Qed.

Lemma WriteMem_cpu s a d : cpu (WriteMem s a d) = cpu s.
Proof.
  unfold WriteMem.
  destruct (ppu_blocks _ _); [reflexivity|].
  destruct (u16 a =? 0xFF50), (u16 a =? 0xFF46), (u16 a =? DIV_REG); reflexivity.
Qed.

Lemma ReadMem_set_cpu s c a : ReadMem (set_cpu s c) a = ReadMem s a.
Proof. reflexivity. Qed.

(** A write that is neither gated nor aimed at a register with a side
    effect is a plain store. *)
Lemma WriteMem_plain_store s a d :
  ppu_blocks (memory s) (u16 a) = false ->
  u16 a <> 0xFF50 -> u16 a <> 0xFF46 -> u16 a <> DIV_REG ->
  WriteMem s a d = set_memory s (upd (memory s) (u16 a) (u8 d)).
Proof.
  intros Hb H50 H46 Hdiv; unfold WriteMem; rewrite Hb.
  apply Z.eqb_neq in H50, H46, Hdiv. now rewrite H50, H46, Hdiv.
Qed.

(** C8, amended: there is no write protection of the cartridge ROM area; a
    [WriteMem] to an address in 0x0000-0x7FFF stores the data byte there. *)
Theorem WriteMem_rom_stores s addr data :
  0 <= addr <= 0x7FFF -> 0 <= data < 256 ->
  memory (WriteMem s addr data) addr = data.
Proof.
  intros Ha Hd.
  assert (Hu : u16 addr = addr) by (apply u16_small; lia).
  rewrite WriteMem_plain_store; rewrite ?Hu; unfold DIV_REG; try lia.
  - cbn [memory set_memory]. rewrite upd_same. now apply u8_small.
  - apply ppu_blocks_outside; unfold in_vram, in_oam; lia.
Qed.

Lemma WriteMem_rom_stores_witness :
  (0 <= 0x1234 <= 0x7FFF /\ 0 <= 0x56 < 256) /\
  memory (WriteMem gb0 0x1234 0x56) 0x1234 = 0x56.
Proof.
  split; [lia|]. apply (WriteMem_rom_stores gb0 0x1234 0x56); lia.
Defined.

(** C8 as stated fails: a write to ROM address 0x1234 changes the byte. *)
Lemma WriteMem_rom_not_ignored :
  ~ (forall s addr data, 0 <= addr <= 0x7FFF -> 0 <= data < 256 ->
       memory (WriteMem s addr data) addr = memory s addr).
Proof.
  intros H. specialize (H gb0 0x1234 0x56).
  assert (E : memory (WriteMem gb0 0x1234 0x56) 0x1234 = 0x56) by reflexivity.
  rewrite E in H. cbn in H. specialize (H ltac:(lia) ltac:(lia)). discriminate H.
Qed.

(** ** DMA *)

Lemma dma_source_separate v :
  0 <= v < 256 ->
  0xFE00 + Z.of_nat 160 <= v * 0x0100 \/ v * 0x0100 + Z.of_nat 160 <= 0xFE00 \/
  v * 0x0100 = 0xFE00.
Proof. intros Hv. change (Z.of_nat 160) with 160. lia. Qed.

(** C5: a write of [v] to 0xFF46 copies the 160 bytes at [v * 0x100] to OAM,
    sets the DMA running flag and zeroes its cycle counter; while the flag is
    set every [ReadMem] below 0xFF80 or above 0xFFFE returns 0xFF; [dma_step]
    adds the cycles to the counter and clears the flag once it reaches 640. *)
Theorem dma_transfer_and_lockout :
  (forall s v, 0 <= v < 256 ->
     let s' := WriteMem s 0xFF46 v in
     (forall i, 0 <= i < 160 -> memory s' (0xFE00 + i) = memory s (v * 0x0100 + i)) /\
     dma_running (dma s') = true /\ dma_cycles (dma s') = 0) /\
  (forall s addr, dma_running (dma s) = true ->
     0 <= addr <= 0xFFFF -> addr < 0xFF80 \/ addr > 0xFFFE ->
     ReadMem s addr = 0xFF) /\
  (forall s c, dma_running (dma s) = true ->
     0 <= dma_cycles (dma s) -> 0 <= c ->
     dma_cycles (dma s) + c < 18446744073709551616 ->
     let s' := dma_step s c in
     dma_cycles (dma s') = dma_cycles (dma s) + c /\
     (dma_running (dma s') = false <-> 640 <= dma_cycles (dma s) + c)).
Proof.
  split; [|split].
  - intros s v Hv s'. subst s'. unfold WriteMem.
    change (u16 0xFF46) with 0xFF46.
    rewrite ppu_blocks_outside by reflexivity.
    change (0xFF46 =? 0xFF50) with false.
    change (0xFF46 =? 0xFF46) with true.
    change (0xFF46 =? DIV_REG) with false.
    cbn [negb memory dma set_memory set_dma dma_running dma_cycles].
    split; [|split; reflexivity].
    intros i Hi. rewrite upd_other by lia.
    rewrite (u8_small v) by lia.
    rewrite (u16_small (v * 0x0100)) by lia.
    apply memcpy_inside; [apply dma_source_separate; lia | change (Z.of_nat 160) with 160; lia].
  - intros s addr Hrun Ha Hout. unfold ReadMem.
    rewrite (u16_small addr) by lia. rewrite Hrun.
    replace ((addr <? 0xFF80) || (addr >? 0xFFFE)) with true; [reflexivity|].
    symmetry; apply orb_true_iff. destruct Hout; [left|right]; lia.
  - intros s c Hrun H0 Hc Hmax s'. subst s'. unfold dma_step. rewrite Hrun.
    cbn [dma set_dma dma_running dma_cycles].
    rewrite usize_small by lia. split; [reflexivity|].
    destruct (dma_cycles (dma s) + c >=? 640) eqn:E; split; intros; try lia;
      try reflexivity; try discriminate.
Qed.

Lemma dma_transfer_and_lockout_witness :
  let s' := WriteMem gb_wram 0xFF46 0xC0 in
  memory s' 0xFE05 = 0xAB /\ dma_running (dma s') = true /\
  ReadMem s' 0xC005 = 0xFF /\
  dma_cycles (dma (dma_step s' 640)) = 640 /\
  dma_running (dma (dma_step s' 640)) = false.
Proof.
  destruct dma_transfer_and_lockout as [Hcopy [Hlock Hstep]].
  intros s'.
  destruct (Hcopy gb_wram 0xC0 ltac:(lia)) as [Hoam [Hrun Hzero]].
  fold s' in Hoam, Hrun, Hzero.
  split; [exact (Hoam 5 ltac:(lia))|].
  split; [exact Hrun|].
  split; [apply (Hlock s' 0xC005 Hrun); lia|].
  destruct (Hstep s' 640 Hrun) as [Hc Hoff]; rewrite ?Hzero; try lia.
  split; [rewrite Hc, Hzero; reflexivity|].
  apply Hoff. rewrite Hzero. lia.
Defined.

(** ** Interrupt service during the DMA lockout *)

Lemma ReadMem_dma_locked s addr :
  dma_running (dma s) = true ->
  u16 addr < 0xFF80 \/ u16 addr > 0xFFFE -> ReadMem s addr = 0xFF.
Proof.
  intros Hrun Hout. unfold ReadMem. rewrite Hrun.
  replace ((u16 addr <? 0xFF80) || (u16 addr >? 0xFFFE)) with true; [reflexivity|].
  symmetry; apply orb_true_iff. destruct Hout; [left|right]; lia.
Qed.

(** C10: while the DMA running flag is set, [handleInterrupts] obtains 0xFF
    for both IE and IF through [ReadMem]; a halted CPU is woken, and with IME
    set an interrupt is serviced (20 cycles) with PC = 0x0040, whatever the
    memory holds at 0xFFFF and 0xFF0F. *)
Theorem handleInterrupts_during_dma s :
  dma_running (dma s) = true ->
  ReadMem s IE_REG = 0xFF /\ ReadMem s IF_REG = 0xFF /\
  halted (cpu (fst (handleInterrupts s))) = false /\
  (IME (cpu s) = true ->
     snd (handleInterrupts s) = 20 /\
     PC (cpu (fst (handleInterrupts s))) = 0x0040 /\
     IME (cpu (fst (handleInterrupts s))) = false).
Proof.
  intros Hrun.
  assert (HIE : ReadMem s IE_REG = 0xFF)
    by (apply ReadMem_dma_locked; [assumption | right; reflexivity]).
  assert (HIF : ReadMem s IF_REG = 0xFF)
    by (apply ReadMem_dma_locked; [assumption | left; reflexivity]).
  split; [exact HIE|]. split; [exact HIF|].
  unfold handleInterrupts. rewrite HIE, HIF.
  change (Z.land 0xFF 0xFF) with 0xFF.
  destruct (IME (cpu s)) eqn:Hime; cbn -[WriteMem clear_mem_bits].
  - split; [|intros _; split; [|split]]; rewrite ?WriteMem_cpu; reflexivity.
  - split; [reflexivity | discriminate].
Qed.

Lemma handleInterrupts_during_dma_witness :
  dma_running (dma gb_dma) = true /\
  halted (cpu gb_dma) = true /\
  memory gb_dma IE_REG = 0 /\ memory gb_dma IF_REG = 0 /\
  halted (cpu (fst (handleInterrupts gb_dma))) = false /\
  PC (cpu (fst (handleInterrupts gb_dma))) = 0x0040.
Proof.
  destruct (handleInterrupts_during_dma gb_dma eq_refl) as [_ [_ [Hw Hs]]].
  destruct (Hs eq_refl) as [_ [Hpc _]].
  repeat split; assumption.
Defined.

(** ** HALT bug *)



(** ** Bytes *)

Lemma zrange_In n : forall start x,
  start <= x < start + Z.of_nat n -> In x (zrange start n).
Proof.
  induction n as [|k IH]; intros start x Hx; [lia|].
  cbn [zrange]. destruct (Z.eq_dec start x) as [->|Hne]; [now left|].
  right. apply IH. lia.
Qed.

Lemma byte_forall (P : Z -> bool) :
  forallb P (zrange 0 256) = true ->
  forall x, 0 <= x < 256 -> P x = true.
Proof.
  intros H x Hx. rewrite forallb_forall in H. apply H.
  apply zrange_In. lia.
Qed.

Lemma land4_testbit x :
  0 <= x < 256 -> (Z.land x 0x04 =? 0) = negb (Z.testbit x 2).
Proof.
  intros Hx. apply Bool.eqb_prop.
  apply (byte_forall (fun x => Bool.eqb (Z.land x 0x04 =? 0) (negb (Z.testbit x 2))));
    [vm_compute; reflexivity | exact Hx].
Qed.

Lemma lor4_byte x : 0 <= x < 256 -> u8 (Z.lor x 0x04) = Z.lor x 0x04.
Proof.
  intros Hx. apply Z.eqb_eq.
  apply (byte_forall (fun x => u8 (Z.lor x 0x04) =? Z.lor x 0x04));
    [vm_compute; reflexivity | exact Hx].
Qed.

(** ** Timer *)

Lemma tima_threshold_period TAC : tima_threshold (Z.land TAC 0x03) = tima_period TAC.
Proof.
  unfold tima_threshold, tima_period, tima_inc_rate.
  repeat match goal with
         | |- context [match ?x with _ => _ end] => destruct x
         end; reflexivity.
Qed.

Lemma tima_threshold_pos sel : 0 < tima_threshold sel.
Proof.
  unfold tima_threshold, tima_inc_rate.
  repeat match goal with
         | |- context [match ?x with _ => _ end] => destruct x
         end; reflexivity.
Qed.

(** The loop runs [counter / threshold] times and leaves the remainder. *)
Lemma tima_loop_iter sel counter m :
  0 <= counter ->
  tima_loop sel counter m =
  (counter mod tima_threshold sel,
   Nat.iter (Z.to_nat (counter / tima_threshold sel)) tima_tick m).
Proof.
  pose proof (tima_threshold_pos sel) as Hpos.
  funelim (tima_loop sel counter m); intros Hc.
  - rewrite H by lia.
    set (t := tima_threshold sel) in *.
    assert (Hq : counter / t = (counter - t) / t + 1).
    { replace counter with ((counter - t) + 1 * t) at 1 by lia.
      rewrite Z.div_add by lia. reflexivity. }
    assert (Hr : counter mod t = (counter - t) mod t).
    { replace counter with ((counter - t) + 1 * t) at 1 by lia.
      rewrite Z.mod_add by lia. reflexivity. }
    rewrite Hq, Hr.
    assert (0 <= (counter - t) / t) by (apply Z.div_pos; lia).
    rewrite Z2Nat.inj_add by lia.
    change (Z.to_nat 1) with 1%nat. rewrite Nat.add_1_r.
    rewrite Nat.iter_succ_r. reflexivity.
  - set (t := tima_threshold sel) in *.
    rewrite Z.mod_small by lia. rewrite Z.div_small by lia. reflexivity.
Qed.

(** One run of the loop body against the specification's increment. *)
Lemma tima_tick_spec m :
  mem_bytes m ->
  (tima_tick m TIMA_REG, tima_tick m IF_REG) =
    tima_spec_tick (m TMA_REG) (m TIMA_REG, m IF_REG) /\
  tima_tick m TMA_REG = m TMA_REG /\
  mem_bytes (tima_tick m).
Proof.
  intros Hm. pose proof (Hm TIMA_REG) as Ht. pose proof (Hm IF_REG) as Hf.
  pose proof (Hm TMA_REG) as Hr.
  unfold tima_tick, tima_spec_tick. cbv zeta. rewrite upd_same.
  destruct (m TIMA_REG =? 0xFF) eqn:E.
  - apply Z.eqb_eq in E. rewrite E. change (u8 (0xFF + 1) =? 0) with true.
    cbv iota. rewrite !upd_same.
    rewrite !(upd_other _ TIMA_REG _ IF_REG) by discriminate.
    rewrite !(upd_other _ TIMA_REG _ TMA_REG) by discriminate.
    rewrite (upd_other _ IF_REG _ TIMA_REG) by discriminate.
    rewrite (upd_other _ IF_REG _ TMA_REG) by discriminate.
    rewrite upd_same. rewrite lor4_byte by assumption.
    split; [reflexivity|]. split; [reflexivity|].
    apply mem_bytes_upd; [apply mem_bytes_upd; [apply mem_bytes_upd|]|];
      auto using u8_range.
    rewrite <- (lor4_byte (m IF_REG)) by assumption. apply u8_range.
  - apply Z.eqb_neq in E.
    rewrite (u8_small (m TIMA_REG + 1)) by lia.
    replace (m TIMA_REG + 1 =? 0) with false by (symmetry; apply Z.eqb_neq; lia).
    rewrite upd_same. rewrite !upd_other by discriminate.
    split; [reflexivity|]. split; [reflexivity|].
    apply mem_bytes_upd; [assumption | lia].
Qed.

Lemma tima_ticks_spec n : forall m,
  mem_bytes m ->
  (Nat.iter n tima_tick m TIMA_REG, Nat.iter n tima_tick m IF_REG) =
    Nat.iter n (tima_spec_tick (m TMA_REG)) (m TIMA_REG, m IF_REG) /\
  Nat.iter n tima_tick m TMA_REG = m TMA_REG /\
  mem_bytes (Nat.iter n tima_tick m).
Proof.
  induction n as [|k IH]; intros m Hm;
    [split; [reflexivity | split; [reflexivity | assumption]]|].
  destruct (IH m Hm) as [Hv [Htma Hb]].
  destruct (tima_tick_spec _ Hb) as [Hv' [Htma' Hb']].
  cbn [Nat.iter nat_rect]. fold (Nat.iter k tima_tick m).
  fold (Nat.iter k (tima_spec_tick (m TMA_REG)) (m TIMA_REG, m IF_REG)).
  rewrite Hv', Htma', !Htma, Hv.
  split; [reflexivity | split; [reflexivity | assumption]].
Qed.

(** C6: with TAC bit 2 set, a step by [c] T-cycles increments TIMA once per
    accumulated period of 1024, 16, 64 or 256 T-cycles (TAC bits 1..0 = 00,
    01, 10, 11), each increment from 0xFF reloading TMA and setting bit 2 of
    IF; with TAC bit 2 clear TIMA is left alone. *)
Theorem timer_step_tima s c :
  mem_bytes (memory s) ->
  let s' := timer_step s c in
  let TAC := memory s TAC_REG in
  let acc := usize (tima_cycle_counter (timer s) + c) in
  (Z.testbit TAC 2 = true ->
     (memory s' TIMA_REG, memory s' IF_REG) =
       Nat.iter (Z.to_nat (acc / tima_period TAC))
                (tima_spec_tick (memory s TMA_REG))
                (memory s TIMA_REG, memory s IF_REG) /\
     tima_cycle_counter (timer s') = acc mod tima_period TAC) /\
  (Z.testbit TAC 2 = false ->
     memory s' TIMA_REG = memory s TIMA_REG /\
     memory s' IF_REG = memory s IF_REG).
Proof.
  intros Hm s' TAC acc. subst s'. unfold timer_step. cbv zeta.
  set (period := CLOCK_FREQ_HZ / DIV_INC_FREQ_HZ).
  set (div := usize (div_cycle_counter (timer s) + c)).
  fold acc.
  assert (Hacc : 0 <= acc) by (apply Z.mod_pos_bound; lia).
  (* the DIV update touches no timer register but DIV *)
  assert (Hdiv : exists d m1,
    (if div >=? period
     then (div mod period,
           upd (memory s) DIV_REG (u8 (memory s DIV_REG + div / period)))
     else (div, memory s)) = (d, m1) /\
    mem_bytes m1 /\ m1 TAC_REG = TAC /\ m1 TIMA_REG = memory s TIMA_REG /\
    m1 IF_REG = memory s IF_REG /\ m1 TMA_REG = memory s TMA_REG).
  { destruct (div >=? period); eexists; eexists; (split; [reflexivity|]).
    - split; [apply mem_bytes_upd; [assumption | apply u8_range]|].
      rewrite !upd_other by discriminate. auto.
    - auto. }
  destruct Hdiv as [d [m1 [E [Hb [Htac [Htima [Hif Htma]]]]]]].
  rewrite E. rewrite Htac.
  rewrite land4_testbit by apply Hm.
  split; intros Hbit; rewrite Hbit; cbn [negb].
  - rewrite tima_loop_iter by assumption.
    rewrite tima_threshold_period.
    cbn [memory timer set_memory set_timer tima_cycle_counter].
    destruct (tima_ticks_spec (Z.to_nat (acc / tima_period TAC)) m1 Hb) as [Hv _].
    rewrite Hv, Htima, Hif, Htma. split; reflexivity.
  - cbn [memory timer set_memory set_timer]. split; assumption.
Qed.

Lemma timer_step_tima_witness :
  mem_bytes (memory gb_timer) /\
  Z.testbit (memory gb_timer TAC_REG) 2 = true /\
  memory (timer_step gb_timer 36) TIMA_REG = 0xAB /\
  memory (timer_step gb_timer 36) IF_REG = 0x04 /\
  tima_cycle_counter (timer (timer_step gb_timer 36)) = 4.
Proof.
  assert (Hb : mem_bytes (memory gb_timer)).
  { unfold gb_timer. cbn [memory set_memory].
    repeat apply mem_bytes_upd; try apply mem_bytes_zero; lia. }
  destruct (timer_step_tima gb_timer 36 Hb) as [Hon _].
  destruct (Hon eq_refl) as [Hv Hc].
  split; [exact Hb|]. split; [reflexivity|].
  split; [exact (f_equal fst Hv)|].
  split; [exact (f_equal snd Hv) | exact Hc].
Defined.

(** ** 16-bit words *)

Lemma word_forall (P : Z -> bool) :
  forallb P (zrange 0 (Z.to_nat 65536)) = true ->
  forall x, 0 <= x < 65536 -> P x = true.
Proof.
  intros H x Hx. rewrite forallb_forall in H. apply H.
  apply zrange_In. lia.
Qed.

(** The two bytes that PUSH stores give the register pair back in POP. *)
Lemma pair_roundtrip x :
  0 <= x < 65536 ->
  u16 (Z.lor (Z.land (u16 (u8 (Z.land x 0x00FF))) 0x00FF)
             (Z.shiftl (u16 (u8 (Z.shiftr x 8))) 8)) = x.
Proof.
  intros Hx. apply Z.eqb_eq.
  apply (word_forall (fun x =>
    u16 (Z.lor (Z.land (u16 (u8 (Z.land x 0x00FF))) 0x00FF)
               (Z.shiftl (u16 (u8 (Z.shiftr x 8))) 8)) =? x));
    [vm_compute; reflexivity | exact Hx].
Qed.

Lemma AF_roundtrip x :
  0 <= x < 65536 ->
  u16 (Z.lor (u16 (Z.shiftl (u8 (Z.shiftr x 8)) 8))
             (Z.land (u8 (Z.land x 0x00F0)) 0xF0)) = Z.land x 0xFFF0.
Proof.
  intros Hx. apply Z.eqb_eq.
  apply (word_forall (fun x =>
    u16 (Z.lor (u16 (Z.shiftl (u8 (Z.shiftr x 8)) 8))
               (Z.land (u8 (Z.land x 0x00F0)) 0xF0)) =? Z.land x 0xFFF0));
    [vm_compute; reflexivity | exact Hx].
Qed.

Lemma u16_dec_dec x : u16 (u16 (x - 1) - 1) = u16 (x - 2).
Proof.
  unfold u16. rewrite Zminus_mod_idemp_l. f_equal. lia.
Qed.

Lemma u16_dec2_inc x : u16 (u16 (x - 2) + 1) = u16 (x - 1).
Proof.
  unfold u16. rewrite Zplus_mod_idemp_l. f_equal. lia.
Qed.

Lemma u16_dec_inc x : 0 <= x < 65536 -> u16 (u16 (x - 1) + 1) = x.
Proof.
  intros Hx. unfold u16. rewrite Zplus_mod_idemp_l.
  replace (x - 1 + 1) with x by lia. apply Z.mod_small; lia.
Qed.

Lemma u16_dec_neq x : u16 (x - 1) <> u16 (x - 2).
Proof.
  unfold u16. intros E.
  assert (H : ((x - 1) - (x - 2)) mod 65536 = 0).
  { rewrite Zminus_mod, E, Z.sub_diag. reflexivity. }
  replace (x - 1 - (x - 2)) with 1 in H by lia. discriminate H.
Qed.

(** ** Stack round trip on plain cells *)

Lemma plain_cell_range s a :
  plain_cell s a = true -> 0 <= a <= 0xFFFF /\ (a < 0xFF00 \/ 0xFF80 <= a).
Proof.
  unfold plain_cell. rewrite !andb_true_iff, orb_true_iff. lia.
Qed.

Lemma plain_cell_write s a d :
  plain_cell s a = true ->
  WriteMem s a d = set_memory s (upd (memory s) a (u8 d)).
Proof.
  intros Hp. destruct (plain_cell_range _ _ Hp) as [Hr Hio].
  assert (Hu : u16 a = a) by (apply u16_small; lia).
  rewrite WriteMem_plain_store; rewrite ?Hu; unfold DIV_REG; try lia; [reflexivity|].
  unfold plain_cell in Hp. rewrite !andb_true_iff in Hp.
  destruct Hp as [[_ Hb] _]. now apply negb_true_iff in Hb.
Qed.

Lemma plain_cell_read s a :
  plain_cell s a = true -> ReadMem s a = memory s a.
Proof.
  intros Hp. destruct (plain_cell_range _ _ Hp) as [Hr Hio].
  assert (Hu : u16 a = a) by (apply u16_small; lia).
  unfold plain_cell in Hp. rewrite !andb_true_iff in Hp.
  destruct Hp as [[[_ Hdma] Hb] Hboot].
  apply negb_true_iff in Hb, Hboot.
  unfold ReadMem. rewrite Hu, Hb, Hboot.
  replace (a =? 0xFF44) with false by (symmetry; apply Z.eqb_neq; lia).
  replace (a =? 0xFF00) with false by (symmetry; apply Z.eqb_neq; lia).
  rewrite andb_false_r.
  destruct (dma_running (dma s)); [|reflexivity].
  cbn [negb orb] in Hdma.
  replace ((a <? 0xFF80) || (a >? 0xFFFE)) with false; [reflexivity|].
  symmetry; apply orb_false_iff. lia.
Qed.

Lemma ppu_blocks_upd m a v x :
  a <> 0xFF40 -> a <> 0xFF41 -> ppu_blocks (upd m a v) x = ppu_blocks m x.
Proof.
  intros H0 H1. unfold ppu_blocks, lcd_enabled, stat_mode.
  rewrite !upd_other by congruence. reflexivity.
Qed.

Lemma plain_cell_store s a v x :
  a < 0xFF00 \/ 0xFF80 <= a ->
  plain_cell (set_memory s (upd (memory s) a v)) x = plain_cell s x.
Proof.
  intros Ha. unfold plain_cell. cbn [memory dma boot_rom_enabled set_memory].
  rewrite ppu_blocks_upd by lia. reflexivity.
Qed.

Lemma push_byte_plain s v :
  plain_cell s (u16 (SP (cpu s) - 1)) = true ->
  push_byte s v =
  set_memory (set_cpu s (set_SP (cpu s) (u16 (SP (cpu s) - 1))))
             (upd (memory s) (u16 (SP (cpu s) - 1)) (u8 v)).
Proof.
  intros Hp. unfold push_byte. cbv zeta.
  rewrite plain_cell_write; [reflexivity | exact Hp].
Qed.

Lemma pop_byte_plain s :
  plain_cell s (SP (cpu s)) = true ->
  pop_byte s = (set_cpu s (set_SP (cpu s) (u16 (SP (cpu s) + 1))),
                memory s (SP (cpu s))).
Proof.
  intros Hp. unfold pop_byte. cbv zeta.
  rewrite ReadMem_set_cpu, plain_cell_read by exact Hp. reflexivity.
Qed.

(** The state after two pushes onto plain cells. *)
Lemma push2_plain s hi lo :
  plain_cell s (u16 (SP (cpu s) - 1)) = true ->
  plain_cell s (u16 (SP (cpu s) - 2)) = true ->
  push_byte (push_byte s hi) lo =
  set_memory (set_cpu s (set_SP (cpu s) (u16 (SP (cpu s) - 2))))
             (upd (upd (memory s) (u16 (SP (cpu s) - 1)) (u8 hi))
                  (u16 (SP (cpu s) - 2)) (u8 lo)).
Proof.
  intros H1 H2.
  rewrite (push_byte_plain s hi H1).
  destruct (plain_cell_range _ _ H1) as [_ Hio].
  rewrite push_byte_plain; cbn [cpu set_cpu set_memory SP set_SP];
    rewrite u16_dec_dec.
  - reflexivity.
  - change (plain_cell (set_memory (set_cpu s (set_SP (cpu s) (u16 (SP (cpu s) - 1))))
              (upd (memory (set_cpu s (set_SP (cpu s) (u16 (SP (cpu s) - 1)))))
                   (u16 (SP (cpu s) - 1)) (u8 hi))) (u16 (SP (cpu s) - 2)) = true).
    rewrite plain_cell_store by exact Hio. exact H2.
Qed.

Lemma u8_idem x : u8 (u8 x) = u8 x.
Proof. unfold u8. apply Z.mod_mod. lia. Qed.

Lemma plain_cell_ext s t x :
  dma s = dma t -> boot_rom_enabled s = boot_rom_enabled t ->
  ppu_blocks (memory s) x = ppu_blocks (memory t) x ->
  plain_cell s x = plain_cell t x.
Proof. intros Hd Hb Hp. unfold plain_cell. now rewrite Hd, Hb, Hp. Qed.

(** The state that two pushes leave on plain cells, seen from POP. *)
Lemma pushed_plain s hi lo x :
  plain_cell s (u16 (SP (cpu s) - 1)) = true ->
  plain_cell s (u16 (SP (cpu s) - 2)) = true ->
  plain_cell (push_byte (push_byte s hi) lo) x = plain_cell s x.
Proof.
  intros H1 H2. rewrite push2_plain by assumption.
  destruct (plain_cell_range _ _ H1) as [_ Hio1].
  destruct (plain_cell_range _ _ H2) as [_ Hio2].
  apply plain_cell_ext; try reflexivity.
  cbn [memory set_memory]. rewrite !ppu_blocks_upd by lia. reflexivity.
Qed.

Lemma pushed_memory s hi lo :
  plain_cell s (u16 (SP (cpu s) - 1)) = true ->
  plain_cell s (u16 (SP (cpu s) - 2)) = true ->
  let t := push_byte (push_byte s hi) lo in
  SP (cpu t) = u16 (SP (cpu s) - 2) /\
  memory t (u16 (SP (cpu s) - 2)) = u8 lo /\
  memory t (u16 (SP (cpu s) - 1)) = u8 hi /\
  AF (cpu t) = AF (cpu s) /\ BC (cpu t) = BC (cpu s) /\
  DE (cpu t) = DE (cpu s) /\ HL (cpu t) = HL (cpu s).
Proof.
  intros H1 H2 t. subst t. rewrite push2_plain by assumption.
  cbn [memory cpu set_memory set_cpu SP AF BC DE HL set_SP].
  rewrite upd_same, upd_other by apply u16_dec_neq. rewrite upd_same.
  repeat split.
Qed.

Lemma POP_BC_plain t :
  plain_cell t (SP (cpu t)) = true ->
  plain_cell t (u16 (SP (cpu t) + 1)) = true ->
  BC (cpu (fst (POP_BC t))) =
    u16 (Z.lor (Z.land (u16 (memory t (SP (cpu t)))) 0x00FF)
               (Z.shiftl (u16 (memory t (u16 (SP (cpu t) + 1)))) 8)) /\
  SP (cpu (fst (POP_BC t))) = u16 (u16 (SP (cpu t) + 1) + 1).
Proof.
  intros H1 H2. unfold POP_BC.
  rewrite pop_byte_plain by exact H1. cbv iota zeta beta.
  rewrite pop_byte_plain by exact H2.
  split; reflexivity.
Qed.

Lemma POP_DE_plain t :
  plain_cell t (SP (cpu t)) = true ->
  plain_cell t (u16 (SP (cpu t) + 1)) = true ->
  DE (cpu (fst (POP_DE t))) =
    u16 (Z.lor (Z.land (u16 (memory t (SP (cpu t)))) 0x00FF)
               (Z.shiftl (u16 (memory t (u16 (SP (cpu t) + 1)))) 8)).
Proof.
  intros H1 H2. unfold POP_DE.
  rewrite pop_byte_plain by exact H1. cbv iota zeta beta.
  rewrite pop_byte_plain by exact H2. reflexivity.
Qed.

Lemma POP_HL_plain t :
  plain_cell t (SP (cpu t)) = true ->
  plain_cell t (u16 (SP (cpu t) + 1)) = true ->
  HL (cpu (fst (POP_HL t))) =
    u16 (Z.lor (Z.land (u16 (memory t (SP (cpu t)))) 0x00FF)
               (Z.shiftl (u16 (memory t (u16 (SP (cpu t) + 1)))) 8)).
Proof.
  intros H1 H2. unfold POP_HL.
  rewrite pop_byte_plain by exact H1. cbv iota zeta beta.
  rewrite pop_byte_plain by exact H2. reflexivity.
Qed.

Lemma POP_AF_plain t :
  plain_cell t (SP (cpu t)) = true ->
  plain_cell t (u16 (SP (cpu t) + 1)) = true ->
  AF (cpu (fst (POP_AF t))) =
    u16 (Z.lor (u16 (Z.shiftl (memory t (u16 (SP (cpu t) + 1))) 8))
               (Z.land (memory t (SP (cpu t))) 0xF0)).
Proof.
  intros H1 H2. unfold POP_AF.
  rewrite pop_byte_plain by exact H1. cbv iota zeta beta.
  rewrite pop_byte_plain by exact H2. reflexivity.
Qed.

(** SP after a push pair and after a pop pair, in any state. *)
Lemma SP_push2 s hi lo :
  SP (cpu (push_byte (push_byte s hi) lo)) = u16 (SP (cpu s) - 2).
Proof.
  unfold push_byte. cbv zeta. rewrite !WriteMem_cpu.
  cbn [cpu set_cpu SP set_SP]. rewrite ?WriteMem_cpu.
  cbn [cpu set_cpu SP set_SP]. apply u16_dec_dec.
Qed.

Lemma SP_restored sp :
  0 <= sp < 65536 -> u16 (u16 (u16 (sp - 2) + 1) + 1) = sp.
Proof. intros H. rewrite u16_dec2_inc. now apply u16_dec_inc. Qed.

Lemma low_nibble_clear a f :
  Z.land (u16 (Z.lor (u16 (Z.shiftl a 8)) (Z.land f 0xF0))) 0x0F = 0.
Proof.
  apply Z.bits_inj'. intros n Hn. rewrite Z.land_spec, Z.bits_0.
  destruct (Z_lt_le_dec n 4) as [Hlt|Hge].
  - unfold u16. change 65536 with (2 ^ 16).
    rewrite Z.mod_pow2_bits_low by lia. rewrite Z.lor_spec.
    rewrite Z.mod_pow2_bits_low by lia. rewrite Z.shiftl_spec_low by lia.
    rewrite Z.land_spec.
    assert (E : Z.testbit 0xF0 n = false).
    { assert (Hc : n = 0 \/ n = 1 \/ n = 2 \/ n = 3) by lia.
      destruct Hc as [->|[->|[->| ->]]]; reflexivity. }
    rewrite E, andb_false_r. reflexivity.
  - rewrite (Z.bits_above_log2 0x0F n) by (cbn; lia). apply andb_false_r.
Qed.

Lemma push_byte_cpu s v :
  cpu (push_byte s v) = set_SP (cpu s) (u16 (SP (cpu s) - 1)).
Proof. unfold push_byte. cbv zeta. now rewrite WriteMem_cpu. Qed.

(** What POP finds after two pushes onto plain cells. *)
Lemma stack_after_push2 s hi lo :
  plain_cell s (u16 (SP (cpu s) - 1)) = true ->
  plain_cell s (u16 (SP (cpu s) - 2)) = true ->
  let t := push_byte (push_byte s hi) lo in
  plain_cell t (SP (cpu t)) = true /\
  plain_cell t (u16 (SP (cpu t) + 1)) = true /\
  memory t (SP (cpu t)) = u8 lo /\
  memory t (u16 (SP (cpu t) + 1)) = u8 hi.
Proof.
  intros H1 H2 t. subst t.
  destruct (pushed_memory s hi lo H1 H2) as (Es & Elo & Ehi & _).
  rewrite Es, u16_dec2_inc, !pushed_plain by assumption. auto.
Qed.

Ltac pop_after_push H1 H2 pop_plain :=
  match goal with
  | |- context [push_byte (push_byte ?s ?hi) ?lo] =>
      let P2 := fresh in let P1 := fresh in
      let Elo := fresh in let Ehi := fresh in
      destruct (stack_after_push2 s hi lo H1 H2) as (P2 & P1 & Elo & Ehi);
      rewrite (pop_plain _ P2 P1), Elo, Ehi, push_byte_cpu;
      cbn [AF BC DE HL set_SP]; rewrite !u8_idem
  end.

(** C7, amended: PUSH rr; POP rr leaves SP unchanged in every state, and
    POP AF always zeroes the low nibble of F; the register pair itself comes
    back (AF with the low nibble of F masked) whenever the two stack bytes at
    SP-1 and SP-2 are plain cells, that is outside the I/O page and not
    gated by a running DMA, by the PPU mode or by the boot ROM. *)
Theorem push_pop_roundtrip :
  (forall s, cpu_wf (cpu s) ->
     plain_cell s (u16 (SP (cpu s) - 1)) = true ->
     plain_cell s (u16 (SP (cpu s) - 2)) = true ->
     BC (cpu (then_ PUSH_BC POP_BC s)) = BC (cpu s) /\
     DE (cpu (then_ PUSH_DE POP_DE s)) = DE (cpu s) /\
     HL (cpu (then_ PUSH_HL POP_HL s)) = HL (cpu s) /\
     AF (cpu (then_ PUSH_AF POP_AF s)) = Z.land (AF (cpu s)) 0xFFF0) /\
  (forall s, 0 <= SP (cpu s) < 65536 ->
     SP (cpu (then_ PUSH_BC POP_BC s)) = SP (cpu s) /\
     SP (cpu (then_ PUSH_DE POP_DE s)) = SP (cpu s) /\
     SP (cpu (then_ PUSH_HL POP_HL s)) = SP (cpu s) /\
     SP (cpu (then_ PUSH_AF POP_AF s)) = SP (cpu s)) /\
  (forall s, Z.land (AF (cpu (fst (POP_AF s)))) 0x0F = 0).
Proof.
  split; [|split].
  - intros s (Haf & Hbc & Hde & Hhl & Hsp & _) H1 H2.
    unfold then_, PUSH_BC, PUSH_DE, PUSH_HL, PUSH_AF. cbv zeta. cbn [fst].
    split; [|split; [|split]].
    + pop_after_push H1 H2 (fun t a b => proj1 (POP_BC_plain t a b)).
      now apply pair_roundtrip.
    + pop_after_push H1 H2 POP_DE_plain. now apply pair_roundtrip.
    + pop_after_push H1 H2 POP_HL_plain. now apply pair_roundtrip.
    + pop_after_push H1 H2 POP_AF_plain. now apply AF_roundtrip.
  - intros s Hsp.
    unfold then_, PUSH_BC, PUSH_DE, PUSH_HL, PUSH_AF,
      POP_BC, POP_DE, POP_HL, POP_AF, pop_byte.
    cbv zeta. cbn [fst snd cpu set_cpu SP set_SP set_BC set_DE set_HL set_AF].
    rewrite !SP_push2. rewrite SP_restored by assumption. repeat split.
  - intros s. unfold POP_AF, pop_byte. cbv zeta.
    cbn [fst cpu set_cpu AF set_AF]. apply low_nibble_clear.
Qed.

Lemma push_pop_roundtrip_witness :
  (cpu_wf (cpu gb_stack) /\
   plain_cell gb_stack (u16 (SP (cpu gb_stack) - 1)) = true /\
   plain_cell gb_stack (u16 (SP (cpu gb_stack) - 2)) = true) /\
  BC (cpu (then_ PUSH_BC POP_BC gb_stack)) = 0x1234 /\
  AF (cpu (then_ PUSH_AF POP_AF gb_stack)) = 0x56F0 /\
  SP (cpu (then_ PUSH_HL POP_HL gb_stack)) = 0xD000.
Proof.
  assert (Hwf : cpu_wf (cpu gb_stack)) by (unfold cpu_wf; cbn; lia).
  destruct push_pop_roundtrip as [Hrr [Hsp _]].
  destruct (Hrr gb_stack Hwf eq_refl eq_refl) as (Hbc & _ & _ & Haf).
  destruct (Hsp gb_stack ltac:(cbn; lia)) as (_ & _ & Hhl & _).
  split; [split; [exact Hwf | split; reflexivity]|].
  split; [exact Hbc|]. split; [exact Haf | exact Hhl].
Defined.

(** C7 as stated fails: during a DMA transfer the bytes pushed to work RAM
    read back as 0xFF, so PUSH BC; POP BC turns BC = 0x1234 into 0xFFFF. *)
Lemma push_pop_not_every_state :
  ~ (forall s, cpu_wf (cpu s) ->
       BC (cpu (then_ PUSH_BC POP_BC s)) = BC (cpu s)).
Proof.
  intros H.
  assert (Hwf : cpu_wf (cpu gb_dma_stack)) by (unfold cpu_wf; cbn; lia).
  specialize (H gb_dma_stack Hwf).
  assert (E : BC (cpu (then_ PUSH_BC POP_BC gb_dma_stack)) = 0xFFFF) by reflexivity.
  rewrite E in H. discriminate H.
Qed.

(** ** The tick loop *)

(** What [main_tick] hands to the step functions: the handler's return value
    when an instruction ran, the interrupt cycles plus 4 when halted. *)
Lemma main_tick_cycles s frame t :
  main_tick s frame = Some t ->
  cycles_executed t =
    match handler_cycles t with
    | Some hc => hc
    | None => interrupt_cycles t + 4
    end /\
  cycles_this_frame t = frame + cycles_executed t /\
  exists s1, tick_state t = serial_tap (advance s1 (cycles_executed t)).
Proof.
  unfold main_tick. destruct (handleInterrupts s) as [s1 ic].
  destruct (halted (cpu s1)).
  - intros E; inversion E; subst; cbn. repeat split. now exists s1.
  - destruct (FetchByte s1) as [s2 op].
    destruct (instruction_table op) as [h|]; [|discriminate].
    destruct (h s2) as [[s3 hc]|]; [|discriminate].
    intros E; inversion E; subst; cbn. repeat split. now exists s3.
Qed.

(** C1, at the failing input: an interrupt is serviced (20 cycles) and the
    NOP at the vector runs (4 cycles); PPU and timer are advanced by 4 and 4
    is added to the frame counter, not 24. *)
Theorem main_tick_drops_interrupt_cycles :
  exists t, main_tick gb_irq 0 = Some t /\
    interrupt_cycles t = 20 /\ handler_cycles t = Some 4 /\
    cycles_executed t = 4 /\ cycles_this_frame t = 4 /\
    cycle_counter (ppu (tick_state t)) = 4 /\
    div_cycle_counter (timer (tick_state t)) = 4 /\
    PC (cpu (tick_state t)) = 0x0041.
Proof.
  eexists. split; [vm_compute; reflexivity|].
  repeat split.
Qed.

(** ** Flag arithmetic *)

Lemma testbit_u16 x i : 0 <= i < 16 -> Z.testbit (u16 x) i = Z.testbit x i.
Proof.
  intros Hi. unfold u16. change 65536 with (2 ^ 16).
  apply Z.mod_pow2_bits_low; lia.
Qed.

Lemma testbit_or_bits af bits i :
  0 <= i < 16 ->
  Z.testbit (u16 (Z.lor af bits)) i = Z.testbit af i || Z.testbit bits i.
Proof. intros Hi. rewrite testbit_u16 by lia. apply Z.lor_spec. Qed.

Lemma testbit_clear_bits af bits i :
  0 <= i < 16 ->
  Z.testbit (u16 (Z.land af (Z.lnot bits))) i =
  Z.testbit af i && negb (Z.testbit bits i).
Proof.
  intros Hi. rewrite testbit_u16 by lia.
  rewrite Z.land_spec, Z.lnot_spec by lia. reflexivity.
Qed.

(** Rewrites the flag tests of a chain of [AF |= ..] / [AF &= ~..]. *)
Ltac flag_bits :=
  unfold flag_Z, flag_N, flag_H, flag_C;
  repeat first [ rewrite testbit_or_bits by lia
               | rewrite testbit_clear_bits by lia ];
  repeat match goal with
         | |- context [Z.testbit (Zpos ?p) (Zpos ?q)] =>
             let v := eval vm_compute in (Z.testbit (Zpos p) (Zpos q)) in
             change (Z.testbit (Zpos p) (Zpos q)) with v
         end;
  cbn [negb];
  rewrite ?andb_true_r, ?orb_false_r, ?andb_false_r, ?orb_true_r.

(** ** ADD HL,rr *)

(** [cpu.c]: the flags of ADD HL,rr follow the flag table. *)
Lemma ADD_HL_rr_flags s n :
  cpu_wf (cpu s) ->
  0 <= n < 65536 ->
  ADD_HL_operand (cpu s) (ReadMem s (PC (cpu s) - 1)) = Some n ->
  exists s', ADD_HL_rr s = Some (s', 8) /\
    flag_Z (AF (cpu s')) = flag_Z (AF (cpu s)) /\
    flag_N (AF (cpu s')) = false /\
    flag_H (AF (cpu s')) =
      (Z.land (HL (cpu s)) 0x0FFF + Z.land n 0x0FFF >? 0x0FFF) /\
    flag_C (AF (cpu s')) = (HL (cpu s) + n >? 0xFFFF) /\
    HL (cpu s') = u16 (HL (cpu s) + n).
Proof.
  intros (Haf & _ & _ & Hhl & _) Hn Hop.
  unfold ADD_HL_rr. rewrite Hop. cbv zeta.
  eexists. split; [reflexivity|].
  assert (Hr : u32 (HL (cpu s) + n) = HL (cpu s) + n)
    by (unfold u32; apply Z.mod_small; lia).
  rewrite Hr. unfold IE_REG.
  cbn [cpu set_cpu AF HL set_HL].
  destruct (HL (cpu s) + n >? 0xFFFF);
    destruct (Z.land _ 0x0FFF + Z.land n 0x0FFF >? 0x0FFF);
    cbn [AF_or AF_clear AF HL set_AF]; flag_bits; repeat split.
Qed.

(** The monolithic copy compares a [uint16_t] with 0xFFFF: whatever the
    operands, ADD HL,rr leaves the carry flag clear. *)
Lemma Monolith_ADD_HL_rr_no_carry s s' c :
  Monolith.ADD_HL_rr s = Some (s', c) ->
  flag_C (Monolith.AF (Monolith.cpu s')) = false.
Proof.
  unfold Monolith.ADD_HL_rr.
  destruct (Monolith.ADD_HL_operand _ _) as [n|]; [|discriminate].
  cbv zeta. intros E. inversion E; subst; clear E.
  assert (Hr : (u16 (Monolith.HL (Monolith.cpu s) + n) >? 0xFFFF) = false).
  { pose proof (u16_range (Monolith.HL (Monolith.cpu s) + n)). lia. }
  rewrite Hr.
  cbn [Monolith.cpu Monolith.set_cpu Monolith.AF Monolith.set_HL].
  destruct (Z.land _ 0x0FFF + Z.land n 0x0FFF >? 0x0FFF);
    cbn [Monolith.AF_or Monolith.AF_clear Monolith.AF Monolith.HL Monolith.set_AF];
    flag_bits; reflexivity.
Qed.

(** C2, at the failing input HL = 0xFFFF, BC = 0x0001 (ADD HL,BC): the sum
    exceeds 0xFFFF, yet the monolithic copy and the first copy of
    [ADD_HL_rr] leave C clear; the handler of [cpu.c] sets it. *)
Theorem ADD_HL_rr_carry_lost :
  Monolith.HL (Monolith.cpu mono_add_hl) + Monolith.BC (Monolith.cpu mono_add_hl)
    = 0x10000 /\
  (exists s', Monolith.ADD_HL_rr mono_add_hl = Some (s', 8) /\
     Monolith.HL (Monolith.cpu s') = 0 /\
     flag_C (Monolith.AF (Monolith.cpu s')) = false) /\
  (exists c', Legacy.ADD_HL_rr (Monolith.cpu mono_add_hl)
                               (Monolith.memory mono_add_hl) = Some (c', 8) /\
     Monolith.HL c' = 0 /\ flag_C (Monolith.AF c') = false) /\
  (exists s', ADD_HL_rr gb_add_hl = Some (s', 8) /\
     HL (cpu s') = 0 /\ flag_C (AF (cpu s')) = true).
Proof.
  split; [reflexivity|].
  repeat split; eexists; (split; [vm_compute; reflexivity|]); split; reflexivity.
Qed.

(** The first copy also takes the half carry from bit 3 instead of bit 11:
    0x0F00 + 0x0100 carries out of bit 11 and H stays clear. *)
Lemma Legacy_ADD_HL_rr_half_carry :
  exists c', Legacy.ADD_HL_rr
               (Monolith.mkCPU 0 0x0100 0 0x0F00 0xFFFE 0x0151 true false false)
               (upd zero_mem 0x0150 0x09) = Some (c', 8) /\
    flag_H (Monolith.AF c') = false /\ flag_C (Monolith.AF c') = true.
Proof. eexists. split; [vm_compute; reflexivity|]. split; reflexivity. Qed.

(** ** ADD SP,s8 *)

(** Checks an equation between integers for every 16-bit value of [x]. *)
Ltac word_check x Hx :=
  apply Z.eqb_eq;
  match goal with
  | |- ?e = true =>
      let P := eval pattern x in e in
      match P with
      | ?f _ => apply (word_forall f); [vm_compute; reflexivity | exact Hx]
      end
  end.

(** [cpu.c]: ADD SP,s8 follows the flag table and keeps A, BC, DE and HL. *)
Lemma ADD_SP_s8_spec s :
  cpu_wf (cpu s) ->
  let e := s8 (snd (FetchByte s)) in
  let s' := fst (ADD_SP_s8 s) in
  flag_Z (AF (cpu s')) = false /\ flag_N (AF (cpu s')) = false /\
  flag_H (AF (cpu s')) = (Z.land (SP (cpu s)) 0x0F + Z.land (u8 e) 0x0F >? 0x0F) /\
  flag_C (AF (cpu s')) = (Z.land (SP (cpu s)) 0xFF + Z.land (u8 e) 0xFF >? 0xFF) /\
  SP (cpu s') = u16 (SP (cpu s) + e) /\
  reg_A (AF (cpu s')) = reg_A (AF (cpu s)) /\
  BC (cpu s') = BC (cpu s) /\ DE (cpu s') = DE (cpu s) /\ HL (cpu s') = HL (cpu s).
Proof.
  intros (Haf & _) e s'. subst e s'. unfold ADD_SP_s8.
  assert (Hregs : AF (cpu (fst (FetchByte s))) = AF (cpu s) /\
                  BC (cpu (fst (FetchByte s))) = BC (cpu s) /\
                  DE (cpu (fst (FetchByte s))) = DE (cpu s) /\
                  HL (cpu (fst (FetchByte s))) = HL (cpu s) /\
                  SP (cpu (fst (FetchByte s))) = SP (cpu s)).
  { unfold FetchByte. destruct (halt_bug (cpu s)); cbn; repeat split. }
  destruct Hregs as (Ea & Eb & Ed & Eh & Es).
  destruct (FetchByte s) as [s1 b]. cbn [fst snd] in *. cbv zeta.
  rewrite <- Es, <- Ea, <- Eb, <- Ed, <- Eh. rewrite <- Ea in Haf.
  set (af := AF (cpu s1)) in *.
  cbn [cpu set_cpu SP AF set_AF].
  destruct (Z.land (SP (cpu s1)) 0x0F + Z.land (u8 (s8 b)) 0x0F >? 0x0F);
    cbn [AF_or AF BC DE HL SP set_AF set_SP];
    destruct (Z.land (SP (cpu s1)) 0xFF + Z.land (u8 (s8 b)) 0xFF >? 0xFF);
    cbn [AF_or AF BC DE HL SP set_AF set_SP]; fold af;
    (repeat split;
     [ flag_bits; rewrite ?Z.land_spec; cbn; rewrite ?andb_false_r; reflexivity ..
     | unfold reg_A; clearbody af; word_check af Haf ]).
Qed.

(** The monolithic copy assigns [cpu->AF = 0x00]: whatever A held, it is 0
    after ADD SP,s8. *)
Lemma Monolith_ADD_SP_s8_zeroes_A s :
  reg_A (Monolith.AF (Monolith.cpu (fst (Monolith.ADD_SP_s8 s)))) = 0.
Proof.
  unfold Monolith.ADD_SP_s8. destruct (Monolith.FetchByte s) as [s1 b].
  cbv zeta.
  cbn [fst Monolith.cpu Monolith.set_cpu Monolith.SP Monolith.AF Monolith.set_AF].
  destruct (Z.land (Monolith.SP (Monolith.cpu s1)) 0x0F + Z.land (s8 b) 0x0F >? 0x0F);
    cbn [Monolith.AF_or Monolith.AF Monolith.SP Monolith.set_AF Monolith.set_SP];
    destruct (Z.land (Monolith.SP (Monolith.cpu s1)) 0xFF + Z.land (s8 b) 0xFF >? 0xFF);
    reflexivity.
Qed.

(** C9, at the failing input A = 0x12, SP = 0xFFF0, operand +1: the
    monolithic copy of [ADD_SP_s8] stores SP + 1 and clears the flags, but
    also zeroes A; the handler of [cpu.c] keeps A. *)
Theorem ADD_SP_s8_clobbers_A :
  reg_A (Monolith.AF (Monolith.cpu mono_add_sp)) = 0x12 /\
  Monolith.SP (Monolith.cpu (fst (Monolith.ADD_SP_s8 mono_add_sp))) = 0xFFF1 /\
  Monolith.AF (Monolith.cpu (fst (Monolith.ADD_SP_s8 mono_add_sp))) = 0x0000 /\
  reg_A (Monolith.AF (Monolith.cpu (fst (Monolith.ADD_SP_s8 mono_add_sp)))) = 0 /\
  AF (cpu (fst (ADD_SP_s8 gb_add_sp))) = 0x1200.
Proof. repeat split. Qed.

(** ** LY = LYC coincidence *)

(** C4, at two failing inputs: [ppu_step] moves LY from 144 to 145 = LYC,
    and from 153 to 0 = LYC, inside VBLANK, and bit 2 of STAT stays clear. *)
Theorem ppu_step_vblank_misses_coincidence :
  (let s' := ppu_step gb_vblank_144 456 in
   ly (ppu s') = 145 /\ memory s' 0xFF44 = 145 /\ memory s' 0xFF45 = 145 /\
   Z.testbit (memory s' 0xFF41) 2 = false) /\
  (let s' := ppu_step gb_vblank_153 456 in
   ly (ppu s') = 0 /\ memory s' 0xFF44 = 0 /\ memory s' 0xFF45 = 0 /\
   mode (ppu s') = MODE_2_OAM_SCAN /\
   Z.testbit (memory s' 0xFF41) 2 = false).
Proof. repeat split. Qed.

(** The HBLANK exit of [ppu_step] on the same kind of input sets the bit. *)
Lemma ppu_step_hblank_sets_coincidence :
  let s' := ppu_step gb_hblank_9 4 in
  ly (ppu s') = 10 /\ memory s' 0xFF45 = 10 /\
  Z.testbit (memory s' 0xFF41) 2 = true.
Proof. repeat split. Qed.

Lemma testbit_u8 x i : 0 <= i < 8 -> Z.testbit (u8 x) i = Z.testbit x i.
Proof.
  intros Hi. unfold u8. change 256 with (2 ^ 8).
  apply Z.mod_pow2_bits_low; lia.
Qed.

Lemma mode_num_bit2 md : Z.testbit (mode_num md) 2 = false.
Proof. destruct md; reflexivity. Qed.

(** STAT bit 2 survives [ppu_set_mode]. *)
Lemma ppu_set_mode_bit2 s md :
  Z.testbit (memory (ppu_set_mode s md) 0xFF41) 2 = Z.testbit (memory s 0xFF41) 2.
Proof.
  unfold ppu_set_mode. cbn [memory set_memory set_ppu]. rewrite upd_same.
  rewrite testbit_u8 by lia. rewrite Z.lor_spec, Z.land_spec, mode_num_bit2.
  change (Z.testbit 0xFC 2) with true. now rewrite andb_true_r, orb_false_r.
Qed.

Lemma stat_request_memory s STAT mask a :
  a <> IF_REG -> memory (stat_request s STAT mask) a = memory s a.
Proof.
  intros Ha. unfold stat_request, or_mem. destruct (negb _); [|reflexivity].
  cbn [memory set_memory]. now apply upd_other.
Qed.

Lemma stat_request_ppu s STAT mask : ppu (stat_request s STAT mask) = ppu s.
Proof. unfold stat_request, or_mem. now destruct (negb _). Qed.

Lemma ppu_set_mode_memory s md a :
  a <> 0xFF41 -> memory (ppu_set_mode s md) a = memory s a.
Proof.
  intros Ha. unfold ppu_set_mode. cbn [memory set_memory set_ppu].
  now apply upd_other.
Qed.

Lemma ppu_set_mode_ly s md : ly (ppu (ppu_set_mode s md)) = ly (ppu s).
Proof. reflexivity. Qed.

Lemma or_mem_memory s a bits x :
  x <> a -> memory (or_mem s a bits) x = memory s x.
Proof. intros Hx. unfold or_mem. cbn [memory set_memory]. now apply upd_other. Qed.

Lemma or_mem_ppu s a bits : ppu (or_mem s a bits) = ppu s.
Proof. reflexivity. Qed.

(** The HBLANK exit of [ppu_step] keeps the coincidence bit in step with
    LY = LYC. *)
Lemma ppu_step_hblank_coincidence s c :
  mode (ppu s) = MODE_0_HBLANK ->
  204 <= usize (cycle_counter (ppu s) + c) ->
  let s' := ppu_step s c in
  ly (ppu s') = u8 (ly (ppu s) + 1) /\
  memory s' 0xFF45 = memory s 0xFF45 /\
  Z.testbit (memory s' 0xFF41) 2 = (ly (ppu s') =? memory s' 0xFF45).
Proof.
  intros Hm Hc s'. subst s'. unfold ppu_step. cbv zeta.
  cbn [ppu set_ppu mode set_cycle_counter cycle_counter memory set_memory
       ly set_ly].
  rewrite Hm.
  replace (usize (cycle_counter (ppu s) + c) >=? 204) with true
    by (symmetry; apply Z.geb_le; lia).
  rewrite (upd_other _ 0xFF44 _ 0xFF45) by discriminate.
  set (L := u8 (ly (ppu s) + 1)).
  set (LYC := memory s 0xFF45).
  set (s1 := set_memory _ (upd (memory s) 0xFF44 L)).
  set (s2 := if L =? LYC then _ else _).
  assert (H2 : ly (ppu s2) = L /\ memory s2 0xFF45 = LYC /\
               Z.testbit (memory s2 0xFF41) 2 = (L =? LYC)).
  { subst s2. destruct (L =? LYC).
    - rewrite stat_request_ppu, !stat_request_memory by discriminate.
      rewrite or_mem_memory by discriminate.
      split; [reflexivity|]. split; [subst s1; cbn [memory set_memory];
        now rewrite upd_other by discriminate|].
      unfold or_mem. cbn [memory set_memory]. rewrite upd_same.
      rewrite testbit_u8, Z.lor_spec by lia. apply orb_true_r.
    - cbn [ppu set_memory memory]. rewrite upd_same.
      split; [reflexivity|]. split; [subst s1; cbn [memory set_memory];
        now rewrite !upd_other by discriminate|].
      unfold clear_bits. rewrite testbit_u8, Z.land_spec, Z.lnot_spec by lia.
      apply andb_false_r. }
  clearbody s2. destruct H2 as (Hly & Hlyc & Hbit).
  destruct (ly (ppu s2) =? 144).
  - rewrite !or_mem_memory, !stat_request_memory by discriminate.
    rewrite ppu_set_mode_bit2, ppu_set_mode_memory by discriminate.
    rewrite !or_mem_ppu, !stat_request_ppu, !ppu_set_mode_ly, Hly, Hlyc. auto.
  - rewrite stat_request_ppu, !stat_request_memory by discriminate.
    unfold ppu_oam_scan. cbn [ppu set_ppu memory ly set_visible_objects].
    rewrite ppu_set_mode_bit2, ppu_set_mode_memory by discriminate.
    rewrite !ppu_set_mode_ly, Hly, Hlyc. auto.
Qed.

(** The VBLANK arm of [ppu_step] never touches the coincidence bit. *)
Lemma ppu_step_vblank_keeps_bit2 s c :
  mode (ppu s) = MODE_1_VBLANK ->
  Z.testbit (memory (ppu_step s c) 0xFF41) 2 = Z.testbit (memory s 0xFF41) 2.
Proof.
  intros Hm. unfold ppu_step. cbv zeta.
  cbn [ppu set_ppu mode set_cycle_counter cycle_counter memory set_memory
       ly set_ly].
  rewrite Hm.
  destruct (usize (cycle_counter (ppu s) + c) >=? 456); [|reflexivity].
  destruct (u8 (ly (ppu s) + 1) >? 153).
  - rewrite stat_request_memory by discriminate.
    unfold ppu_oam_scan. cbn [memory set_ppu].
    rewrite ppu_set_mode_bit2. cbn [memory set_memory set_ppu].
    now rewrite !upd_other by discriminate.
  - cbn [memory set_memory]. now rewrite upd_other by discriminate.
Qed.
